(** * SensorListener: orientation inference for the camera HAL

    A shallow embedding of [CameraHal/SensorListener.cpp]: the arithmetic of
    [sensor_events_listener] on IEEE-754 binary32 values, and the
    [SensorListener] object (constructor, [initialize], [setCallbacks],
    [handleOrientation], [enableSensor], [disableSensor], destructor) as
    state-passing functions over the fields of the class and a record of the
    Android services it calls. *)

From Stdlib Require Import ZArith Bool List String Lia.
From Stdlib Require Import Floats.SpecFloat.
Import ListNotations.
Open Scope Z_scope.

(** ** C scalar types *)

(** [float] is IEEE-754 binary32, [double] is binary64.  Both are carried by
    [spec_float]; the precision lives in the operations. *)
Definition float := spec_float.
Definition double := spec_float.

Module F32.
Definition prec : Z := 24.
Definition emax : Z := 128.
Definition zero : float := S754_zero false.
Definition neg (a : float) : float := SFopp a.
Definition mul (a b : float) : float := SFmul prec emax a b.
Definition add (a b : float) : float := SFadd prec emax a b.
Definition div (a b : float) : float := SFdiv prec emax a b.
(** Conversion [int -> float] (round to nearest, ties to even). *)
Definition of_int (k : Z) : float := binary_normalize prec emax k 0 false.
(** Conversion [double -> float]. *)
Definition of_double (d : double) : float :=
  match d with
  | S754_finite s m e => binary_normalize prec emax (cond_Zopp s (Zpos m)) e s
  | _ => d
  end.
End F32.

Module F64.
Definition prec : Z := 53.
Definition emax : Z := 1024.
Definition div (a b : double) : double := SFdiv prec emax a b.
Definition sqrt (a : double) : double := SFsqrt prec emax a.
Definition of_int (k : Z) : double := binary_normalize prec emax k 0 false.
(** Promotion [float -> double] is exact: the value is kept as it is. *)
Definition of_float (a : float) : double := a.
End F64.

Definition INT_MIN : Z := - 2 ^ 31.
Definition INT_MAX : Z := 2 ^ 31 - 1.

(** Conversion [float -> int]: the fractional part is discarded.  The
    conversion is undefined ([None]) for a NaN, an infinity, and a value whose
    integral part does not fit an [int]. *)
Definition float_to_int (a : float) : option Z :=
  match a with
  | S754_zero _ => Some 0
  | S754_finite s m e =>
      let v := cond_Zopp s (Z.shiftl (Zpos m) e) in
      if (INT_MIN <=? v) && (v <=? INT_MAX) then Some v else None
  | S754_infinity _ | S754_nan => None
  end.

(** Conversion [int -> uint32_t] at the call of [handleOrientation]. *)
Definition to_uint32 (v : Z) : Z := v mod 2 ^ 32.

(** The two functions of the C library that IEEE-754 does not pin down.
    ([sqrt] is correctly rounded and is [F64.sqrt].) *)
Record Libm : Type := {
  asinf : float -> float;
  atan2f : float -> float -> float
}.

(** ** Static declarations *)

(** [M_PI] of <math.h>, the double nearest to pi. *)
Definition M_PI : double := S754_finite false 7074237752028440 (-51).

(** [static const float RADIANS_2_DEG = (float) (180 / M_PI);] *)
Definition RADIANS_2_DEG : float :=
  F32.of_double (F64.div (F64.of_int 180) M_PI).

Definition DEGREES_90_THRESH : Z := 50.
Definition DEGREES_180_THRESH : Z := 170.
Definition DEGREES_270_THRESH : Z := 250.

(** ** The arithmetic of [sensor_events_listener] *)

(** [radius = (float) sqrt(x * x + y * y + z * z);] *)
Definition radius (x y z : float) : float :=
  F32.of_double
    (F64.sqrt
       (F64.of_float
          (F32.add (F32.add (F32.mul x x) (F32.mul y y)) (F32.mul z z)))).

(** [(int) f * RADIANS_2_DEG], stored in an [int]: the cast applies to [f]
    alone, the product is a [float], and the store converts it again. *)
Definition cast_times_RADIANS_2_DEG (f : float) : option Z :=
  match float_to_int f with
  | Some k => float_to_int (F32.mul (F32.of_int k) RADIANS_2_DEG)
  | None => None
  end.

(** [tilt = (int) asinf(z / radius) * RADIANS_2_DEG;] *)
Definition accel_tilt (lm : Libm) (x y z : float) : option Z :=
  cast_times_RADIANS_2_DEG (asinf lm (F32.div z (radius x y z))).

(** The chain of comparisons against the three thresholds. *)
Definition discretize (orient : Z) : Z :=
  if DEGREES_270_THRESH <=? orient then 270
  else if DEGREES_180_THRESH <=? orient then 180
  else if DEGREES_90_THRESH <=? orient then 90
  else 0.

(** [orient = (int) atan2f(-x, y) * RADIANS_2_DEG;] followed by
    [if (orient < 0) orient += 360;] and the thresholds. *)
Definition accel_orient (lm : Libm) (x y : float) : option Z :=
  match cast_times_RADIANS_2_DEG (atan2f lm (F32.neg x) y) with
  | Some orient =>
      let orient := if orient <? 0 then orient + 360 else orient in
      Some (discretize orient)
  | None => None
  end.

(** The pair handed to [handleOrientation(uint32_t, uint32_t)] for one
    accelerometer sample; [None] when a conversion above is undefined. *)
Definition accel_reading (lm : Libm) (x y z : float) : option (Z * Z) :=
  match accel_tilt lm x y z, accel_orient lm x y with
  | Some tilt, Some orient => Some (to_uint32 orient, to_uint32 tilt)
  | _, _ => None
  end.

(** Some binary32 values used below. *)
Definition f_one : float := F32.of_int 1.
(** 0x3FC90FDB, the float nearest to pi/2. *)
Definition f_pio2 : float := S754_finite false 13176795 (-23).
(** 0xBF490FDB, the float nearest to -pi/4. *)
Definition f_minus_pio4 : float := S754_finite true 13176795 (-24).

(** ** Constants of the Android headers *)

(** [status_t] and its codes (utils/Errors.h). *)
Definition status_t : Type := Z.
Definition NO_ERROR : status_t := 0.
Definition UNKNOWN_ERROR : status_t := INT_MIN.
Definition NO_MEMORY : status_t := -12.
Definition NO_INIT : status_t := -19.
Definition INVALID_OPERATION : status_t := -38.
Definition EAGAIN : Z := 11.

(** [Sensor::TYPE_ACCELEROMETER], [Sensor::TYPE_GYROSCOPE]. *)
Definition TYPE_ACCELEROMETER : Z := 1.
Definition TYPE_GYROSCOPE : Z := 4.

(** [ms2ns] of utils/Timers.h. *)
Definition ms2ns (ms : Z) : Z := ms * 1000000.

(** ** Objects *)

(** A non-null pointer is an [address]; a pointer that may be null is an
    [option address]. *)
Definition address : Type := positive.

Record ASensorEvent : Type := {
  ev_type : Z;
  azimuth : float;
  pitch : float;
  roll : float
}.

Record SensorEventQueue : Type := {
  queue_addr : address;
  queue_fd : Z
}.

(** What the code can observe of a [SensorLooperThread]: the looper it polls
    and the two flags of [Thread]. *)
Record SensorLooperThread : Type := {
  thread_looper : address;
  running : bool;
  exit_pending : bool
}.

(** The fields of [class SensorListener]. *)
Record SensorListener : Type := {
  sensorsEnabled : Z;
  mOrientationCb : option address;
  mCbCookie : option address;
  mLooper : option address;
  mSensorEventQueue : option SensorEventQueue;
  mSensorLooperThread : option SensorLooperThread
}.

(** Calls that leave the object, in the order they are made. *)
Inductive call : Type :=
| QueueEnableSensor (q sensor : address)
| QueueSetEventRate (q sensor : address) (ns : Z)
| QueueDisableSensor (q sensor : address)
| LooperAddFd (looper : address) (fd : Z)
| LooperRemoveFd (looper : address) (fd : Z)
| ThreadRun (looper : address)
| ThreadRequestExit
| ThreadWake
| ThreadJoin
| OrientationCb (fn : address) (orientation tilt : Z) (cookie : option address)
| LOGE (msg : string).

(** The services around the object: what the sensor manager answers, what
    the allocator and the thread library will do next, the samples waiting in
    the event queue, and the log of calls made so far. *)
Record World : Type := {
  default_accelerometer : option address;
  next_queue : option SensorEventQueue;
  next_looper : address;
  thread_alloc_ok : bool;
  spawn_ok : bool;
  pending : list ASensorEvent;
  read_errno : positive;
  calls : list call
}.

Record State : Type := {
  this : SensorListener;
  world : World
}.

(** ** State and failure *)

(** A member function is a state transformer that may fail; failure is a
    dereference of a null pointer or an undefined conversion. *)
Definition M (A : Type) : Type := State -> option (A * State).

Definition ret {A : Type} (a : A) : M A := fun s => Some (a, s).

Definition bind {A B : Type} (c : M A) (k : A -> M B) : M B :=
  fun s => match c s with
           | Some (a, s') => k a s'
           | None => None
           end.

Definition fail {A : Type} : M A := fun _ => None.

Notation "x <- c ;; k" := (bind c (fun x => k))
  (at level 61, c at next level, right associativity).
Notation "c ;;; k" := (bind c (fun _ => k))
  (at level 61, right associativity).

Definition get_this : M SensorListener := fun s => Some (this s, s).
Definition get_world : M World := fun s => Some (world s, s).

Definition modify_this (f : SensorListener -> SensorListener) : M unit :=
  fun s => Some (tt, {| this := f (this s); world := world s |}).

Definition modify_world (f : World -> World) : M unit :=
  fun s => Some (tt, {| this := this s; world := f (world s) |}).

(** [p->...] on a pointer that may be null. *)
Definition deref {A : Type} (p : option A) : M A :=
  match p with
  | Some a => ret a
  | None => fail
  end.

Definition set_calls (cs : list call) (w : World) : World :=
  {| default_accelerometer := default_accelerometer w;
     next_queue := next_queue w;
     next_looper := next_looper w;
     thread_alloc_ok := thread_alloc_ok w;
     spawn_ok := spawn_ok w;
     pending := pending w;
     read_errno := read_errno w;
     calls := cs |}.

Definition set_pending (evs : list ASensorEvent) (w : World) : World :=
  {| default_accelerometer := default_accelerometer w;
     next_queue := next_queue w;
     next_looper := next_looper w;
     thread_alloc_ok := thread_alloc_ok w;
     spawn_ok := spawn_ok w;
     pending := evs;
     read_errno := read_errno w;
     calls := calls w |}.

Definition emit (c : call) : M unit :=
  modify_world (fun w => set_calls (calls w ++ [c]) w).

Definition set_sensorsEnabled (v : Z) (l : SensorListener) : SensorListener :=
  {| sensorsEnabled := v;
     mOrientationCb := mOrientationCb l;
     mCbCookie := mCbCookie l;
     mLooper := mLooper l;
     mSensorEventQueue := mSensorEventQueue l;
     mSensorLooperThread := mSensorLooperThread l |}.

Definition set_mOrientationCb (v : option address) (l : SensorListener)
  : SensorListener :=
  {| sensorsEnabled := sensorsEnabled l;
     mOrientationCb := v;
     mCbCookie := mCbCookie l;
     mLooper := mLooper l;
     mSensorEventQueue := mSensorEventQueue l;
     mSensorLooperThread := mSensorLooperThread l |}.

Definition set_mCbCookie (v : option address) (l : SensorListener)
  : SensorListener :=
  {| sensorsEnabled := sensorsEnabled l;
     mOrientationCb := mOrientationCb l;
     mCbCookie := v;
     mLooper := mLooper l;
     mSensorEventQueue := mSensorEventQueue l;
     mSensorLooperThread := mSensorLooperThread l |}.

Definition set_mLooper (v : option address) (l : SensorListener)
  : SensorListener :=
  {| sensorsEnabled := sensorsEnabled l;
     mOrientationCb := mOrientationCb l;
     mCbCookie := mCbCookie l;
     mLooper := v;
     mSensorEventQueue := mSensorEventQueue l;
     mSensorLooperThread := mSensorLooperThread l |}.

Definition set_mSensorEventQueue (v : option SensorEventQueue)
  (l : SensorListener) : SensorListener :=
  {| sensorsEnabled := sensorsEnabled l;
     mOrientationCb := mOrientationCb l;
     mCbCookie := mCbCookie l;
     mLooper := mLooper l;
     mSensorEventQueue := v;
     mSensorLooperThread := mSensorLooperThread l |}.

Definition set_mSensorLooperThread (v : option SensorLooperThread)
  (l : SensorListener) : SensorListener :=
  {| sensorsEnabled := sensorsEnabled l;
     mOrientationCb := mOrientationCb l;
     mCbCookie := mCbCookie l;
     mLooper := mLooper l;
     mSensorEventQueue := mSensorEventQueue l;
     mSensorLooperThread := v |}.

(** ** The member functions of [SensorListener] *)

Section Listener.

(** [SENSOR_ORIENTATION] is an enumerator of [sensor_type_t], declared in
    SensorListener.h; the functions below only use it as a bit mask. *)
Variable SENSOR_ORIENTATION : Z.

(** The C library the handler is linked with. *)
Variable lm : Libm.

(** [SensorListener::SensorListener()].  [mCbCookie] is not assigned: it
    starts with whatever the storage holds, here [junk].  The smart
    pointer [mLooper] is null by default. *)
Definition constructor (junk : option address) : SensorListener :=
  {| sensorsEnabled := 0;
     mOrientationCb := None;
     mCbCookie := junk;
     mLooper := None;
     mSensorEventQueue := None;
     mSensorLooperThread := None |}.

(** [SensorListener::setCallbacks] *)
Definition setCallbacks (orientation_cb cookie : option address) : M unit :=
  (match orientation_cb with
   | Some fn => modify_this (set_mOrientationCb (Some fn))
   | None => ret tt
   end) ;;;
  modify_this (set_mCbCookie cookie).

(** [SensorListener::handleOrientation] *)
Definition handleOrientation (orientation tilt : Z) : M unit :=
  l <- get_this ;;
  match mOrientationCb l with
  | Some fn =>
      if Z.land (sensorsEnabled l) SENSOR_ORIENTATION =? 0 then ret tt
      else emit (OrientationCb fn orientation tilt (mCbCookie l))
  | None => ret tt
  end.

(** [mgr.getDefaultSensor(Sensor::TYPE_ACCELEROMETER)] *)
Definition getDefaultSensor : M (option address) :=
  w <- get_world ;; ret (default_accelerometer w).

(** [SensorListener::enableSensor] *)
Definition enableSensor (type : Z) : M unit :=
  l <- get_this ;;
  if negb (Z.land type SENSOR_ORIENTATION =? 0)
     && (Z.land (sensorsEnabled l) SENSOR_ORIENTATION =? 0)
  then
    sensor <- getDefaultSensor ;;
    match sensor with
    | Some s =>
        q <- deref (mSensorEventQueue l) ;;
        emit (QueueEnableSensor (queue_addr q) s) ;;;
        emit (QueueSetEventRate (queue_addr q) s (ms2ns 100)) ;;;
        modify_this
          (set_sensorsEnabled (Z.lor (sensorsEnabled l) SENSOR_ORIENTATION))
    | None => ret tt
    end
  else ret tt.

(** [SensorListener::disableSensor] *)
Definition disableSensor (type : Z) : M unit :=
  l <- get_this ;;
  if negb (Z.land type SENSOR_ORIENTATION =? 0)
     && negb (Z.land (sensorsEnabled l) SENSOR_ORIENTATION =? 0)
  then
    sensor <- getDefaultSensor ;;
    match sensor with
    | Some s =>
        q <- deref (mSensorEventQueue l) ;;
        emit (QueueDisableSensor (queue_addr q) s) ;;;
        modify_this
          (set_sensorsEnabled
             (Z.land (sensorsEnabled l) (Z.lnot SENSOR_ORIENTATION)))
    | None => ret tt
    end
  else ret tt.

(** [Thread::run]: a thread that is already running answers
    [INVALID_OPERATION]; otherwise the thread is spawned, or the spawn
    fails with [UNKNOWN_ERROR]. *)
Definition Thread_run (t : SensorLooperThread) : M status_t :=
  emit (ThreadRun (thread_looper t)) ;;;
  if running t then ret INVALID_OPERATION
  else
    w <- get_world ;;
    if spawn_ok w then
      modify_this
        (set_mSensorLooperThread
           (Some {| thread_looper := thread_looper t;
                    running := true;
                    exit_pending := exit_pending t |})) ;;;
      ret NO_ERROR
    else ret UNKNOWN_ERROR.

(** [SensorListener::initialize].  The looper is held by the local
    variable [mLooper] declared in the body; the member of the same name
    is not assigned. *)
Definition initialize : M status_t :=
  w <- get_world ;;
  modify_this (set_mSensorEventQueue (next_queue w)) ;;;
  match next_queue w with
  | None =>
      emit (LOGE "createEventQueue returned NULL") ;;;
      ret NO_INIT
  | Some q =>
      let local_mLooper := next_looper w in
      emit (LooperAddFd local_mLooper (queue_fd q)) ;;;
      l <- get_this ;;
      (match mSensorLooperThread l with
       | None =>
           if thread_alloc_ok w then
             modify_this
               (set_mSensorLooperThread
                  (Some {| thread_looper := local_mLooper;
                           running := false;
                           exit_pending := false |}))
           else ret tt
       | Some _ => ret tt
       end) ;;;
      l <- get_this ;;
      match mSensorLooperThread l with
      | None =>
          emit (LOGE "Couldn't create sensor looper thread") ;;;
          ret NO_MEMORY
      | Some t =>
          r <- Thread_run t ;;
          if r =? INVALID_OPERATION then
            emit (LOGE "thread already running ?!?") ;;;
            ret r
          else if negb (r =? NO_ERROR) then
            emit (LOGE "couldn't run thread") ;;;
            ret r
          else ret r
      end
  end.

(** [Thread::requestExit]: raises the flag the thread loop tests. *)
Definition Thread_requestExit (t : SensorLooperThread) : M unit :=
  emit ThreadRequestExit ;;;
  modify_this
    (set_mSensorLooperThread
       (Some {| thread_looper := thread_looper t;
                running := running t;
                exit_pending := true |})).

(** The second [if] of the destructor. *)
Definition kill_looper : M unit :=
  l <- get_this ;;
  match mLooper l with
  | Some looper =>
      q <- deref (mSensorEventQueue l) ;;
      emit (LooperRemoveFd looper (queue_fd q)) ;;;
      modify_this (set_mLooper None)
  | None => ret tt
  end.

(** [SensorListener::~SensorListener] *)
Definition destructor : M unit :=
  l <- get_this ;;
  (match mSensorLooperThread l with
   | Some t =>
       Thread_requestExit t ;;;
       emit ThreadWake ;;;
       emit ThreadJoin ;;;
       modify_this (set_mSensorLooperThread None)
   | None => ret tt
   end) ;;;
  kill_looper.

(** [mSensorEventQueue->read(sen_events, 8)]: the first samples waiting in
    the queue, at most 8, or minus an error number when none is waiting. *)
Definition queue_read (n : nat) : M (Z * list ASensorEvent) :=
  l <- get_this ;;
  _ <- deref (mSensorEventQueue l) ;;
  w <- get_world ;;
  match pending w with
  | [] => ret (Zneg (read_errno w), [])
  | _ :: _ =>
      let batch := firstn n (pending w) in
      modify_world (set_pending (skipn n (pending w))) ;;;
      ret (Z.of_nat (List.length batch), batch)
  end.

(** The body of the [for] loop for one event; a gyroscope event is only
    traced. *)
Definition handle_event (e : ASensorEvent) : M unit :=
  if ev_type e =? TYPE_ACCELEROMETER then
    match accel_reading lm (azimuth e) (pitch e) (roll e) with
    | Some (orient, tilt) => handleOrientation orient tilt
    | None => fail
    end
  else if ev_type e =? TYPE_GYROSCOPE then ret tt
  else ret tt.

Fixpoint handle_events (es : list ASensorEvent) : M unit :=
  match es with
  | [] => ret tt
  | e :: es' => handle_event e ;;; handle_events es'
  end.

(** The [while] loop; it yields the last value of [num_sensors]. *)
Fixpoint read_loop (fuel : nat) : M (option Z) :=
  match fuel with
  | O => ret None
  | S fuel' =>
      r <- queue_read 8 ;;
      if 0 <? fst r then handle_events (snd r) ;;; read_loop fuel'
      else ret (Some (fst r))
  end.

(** [sensor_events_listener(fd, events, data)] with [data] the listener.
    Every pass of the loop consumes a sample, so one more pass than there
    are samples waiting is enough. *)
Definition sensor_events_listener (fd events : Z) : M Z :=
  w <- get_world ;;
  r <- read_loop (S (List.length (pending w))) ;;
  match r with
  | None => fail
  | Some num_sensors =>
      (if (num_sensors <? 0) && negb (num_sensors =? - EAGAIN)
       then emit (LOGE "reading events failed")
       else ret tt) ;;;
      ret 1
  end.

(** *** The destructor next to the looper thread

    The destructor runs on a client thread while the looper thread may
    still be inside [sensor_events_listener].  [dtor_pc] is the place the
    destructor has reached; [dtor_step] runs it up to its next call into
    the thread library. *)
Inductive dtor_pc : Type :=
| BeforeDtor
| AtWake
| AtJoin
| AtKillLooper
| DtorDone.

Definition dtor_step (pc : dtor_pc) : M dtor_pc :=
  match pc with
  | BeforeDtor =>
      l <- get_this ;;
      match mSensorLooperThread l with
      | Some t => Thread_requestExit t ;;; ret AtWake
      | None => ret AtKillLooper
      end
  | AtWake => emit ThreadWake ;;; ret AtJoin
  | AtJoin =>
      emit ThreadJoin ;;;
      modify_this (set_mSensorLooperThread None) ;;;
      ret AtKillLooper
  | AtKillLooper => kill_looper ;;; ret DtorDone
  | DtorDone => ret DtorDone
  end.

(** The destructor on its own: [fuel] steps in a row. *)
Fixpoint dtor_run (fuel : nat) (pc : dtor_pc) : M dtor_pc :=
  match fuel with
  | O => ret pc
  | S fuel' => pc' <- dtor_step pc ;; dtor_run fuel' pc'
  end.

Inductive pump_status : Type :=
| Polling
| PumpExited.

Record Config : Type := {
  state : State;
  dtor : dtor_pc;
  pump : pump_status
}.

Definition exit_requested (l : SensorListener) : bool :=
  match mSensorLooperThread l with
  | Some t => exit_pending t
  | None => false
  end.

Definition add_sample (e : ASensorEvent) (s : State) : State :=
  {| this := this s;
     world := set_pending (pending (world s) ++ [e]) (world s) |}.

(** Modelled from the spec: the loop of [SensorLooperThread], declared in
    SensorListener.h, which the spec has wait on the looper, drain the
    samples through the handler, and leave only on an exit request.

    One atomic step of the whole: the destructor advances ([ThreadJoin]
    returns only once the looper thread has exited), the looper thread
    runs the handler registered with [addFd], the looper thread leaves its
    loop after the exit request, or the sensor service queues a sample. *)
Inductive step : Config -> Config -> Prop :=
| step_dtor : forall c pc' s',
    dtor c <> DtorDone ->
    (dtor c = AtJoin -> pump c = PumpExited) ->
    dtor_step (dtor c) (state c) = Some (pc', s') ->
    step c {| state := s'; dtor := pc'; pump := pump c |}
| step_pump_events : forall c q r s',
    pump c = Polling ->
    mSensorEventQueue (this (state c)) = Some q ->
    sensor_events_listener (queue_fd q) 1 (state c) = Some (r, s') ->
    step c {| state := s'; dtor := dtor c; pump := Polling |}
| step_pump_exit : forall c,
    pump c = Polling ->
    exit_requested (this (state c)) = true ->
    step c {| state := state c; dtor := dtor c; pump := PumpExited |}
| step_sample : forall c e,
    step c {| state := add_sample e (state c);
              dtor := dtor c; pump := pump c |}.

Inductive steps : Config -> Config -> Prop :=
| steps_refl : forall c, steps c c
| steps_snoc : forall c c' c'', steps c c' -> step c' c'' -> steps c c''.

End Listener.

(** ** Values for closed examples *)

(** The answers of a correctly rounded C library at the few arguments the
    examples use; every other argument is left unanswered (NaN). *)
Definition example_asinf (a : float) : float :=
  match a with
  | S754_zero _ => a
  | S754_finite false 8388608 (-23) => f_pio2
  | _ => S754_nan
  end.

Definition example_atan2f (y x : float) : float :=
  match y, x with
  | S754_zero _, S754_zero false => y
  | S754_finite true 8388608 (-23), S754_finite false 8388608 (-23) =>
      f_minus_pio4
  | _, _ => S754_nan
  end.

Definition example_libm : Libm :=
  {| asinf := example_asinf; atan2f := example_atan2f |}.

(** [SENSOR_ORIENTATION] as [1 << 5] and a gyroscope kind as [1 << 2]. *)
Definition example_SENSOR_ORIENTATION : Z := Z.shiftl 1 5.
Definition example_SENSOR_GYROSCOPE : Z := Z.shiftl 1 2.

Definition example_world : World :=
  {| default_accelerometer := Some 5%positive;
     next_queue := Some {| queue_addr := 3%positive; queue_fd := 7 |};
     next_looper := 4%positive;
     thread_alloc_ok := true;
     spawn_ok := true;
     pending := [];
     read_errno := 11%positive;
     calls := [] |}.

(** A device without an accelerometer. *)
Definition example_world_no_accelerometer : World :=
  {| default_accelerometer := None;
     next_queue := next_queue example_world;
     next_looper := next_looper example_world;
     thread_alloc_ok := true;
     spawn_ok := true;
     pending := [];
     read_errno := 11%positive;
     calls := [] |}.

(** A listener just constructed. *)
Definition example_fresh : State :=
  {| this := constructor None; world := example_world |}.

Definition example_fresh_no_accelerometer : State :=
  {| this := constructor None; world := example_world_no_accelerometer |}.

(** The listener after [initialize], [setCallbacks] with the callback at
    address 1 and the context at address 2, and [enableSensor]. *)
Definition example_running : State :=
  {| this :=
       {| sensorsEnabled := 32;
          mOrientationCb := Some 1%positive;
          mCbCookie := Some 2%positive;
          mLooper := None;
          mSensorEventQueue := Some {| queue_addr := 3%positive; queue_fd := 7 |};
          mSensorLooperThread :=
            Some {| thread_looper := 4%positive;
                    running := true;
                    exit_pending := false |} |};
     world :=
       set_calls
         [LooperAddFd 4%positive 7; ThreadRun 4%positive;
          QueueEnableSensor 3%positive 5%positive;
          QueueSetEventRate 3%positive 5%positive 100000000]
         example_world |}.

(** The listener after [initialize] alone. *)
Definition example_initialized : State :=
  {| this :=
       {| sensorsEnabled := 0;
          mOrientationCb := None;
          mCbCookie := None;
          mLooper := None;
          mSensorEventQueue := Some {| queue_addr := 3%positive; queue_fd := 7 |};
          mSensorLooperThread :=
            Some {| thread_looper := 4%positive;
                    running := true;
                    exit_pending := false |} |};
     world :=
       set_calls [LooperAddFd 4%positive 7; ThreadRun 4%positive]
         example_world |}.

(** The accelerometer sample (0, 0, 1): gravity straight up. *)
Definition example_sample_up : ASensorEvent :=
  {| ev_type := TYPE_ACCELEROMETER;
     azimuth := F32.zero;
     pitch := F32.zero;
     roll := f_one |}.

(** The running listener with one sample waiting, the destructor about to
    begin and the looper thread polling. *)
Definition example_config : Config :=
  {| state := add_sample example_sample_up example_running;
     dtor := BeforeDtor;
     pump := Polling |}.

(** ** Vocabulary for the call log *)

Definition is_callback (c : call) : bool :=
  match c with
  | OrientationCb _ _ _ _ => true
  | _ => false
  end.

Definition is_request_exit (c : call) : bool :=
  match c with
  | ThreadRequestExit => true
  | _ => false
  end.

Definition is_join (c : call) : bool :=
  match c with
  | ThreadJoin => true
  | _ => false
  end.

(** The calls the destructor makes to shut the listener down. *)
Definition is_shutdown_call (c : call) : bool :=
  match c with
  | ThreadRequestExit | ThreadWake | ThreadJoin | LooperRemoveFd _ _ => true
  | _ => false
  end.

Definition shutdown_calls (cs : list call) : list call :=
  filter is_shutdown_call cs.

(** The calls made after the first one that satisfies [p]. *)
Fixpoint calls_after (p : call -> bool) (cs : list call) : list call :=
  match cs with
  | [] => []
  | c :: cs' => if p c then cs' else calls_after p cs'
  end.

(** The listener is untouched and the calls added are none of the
    destructor's. *)
Definition quiet (s s' : State) : Prop :=
  this s' = this s /\
  exists new,
    calls (world s') = calls (world s) ++ new /\
    shutdown_calls new = [].

(** The shutdown calls in the order the destructor is meant to make them,
    for a listener that has a thread. *)
Definition shutdown_order (looper : address) (fd : Z) : list call :=
  [ThreadRequestExit; ThreadWake; ThreadJoin; LooperRemoveFd looper fd].

(** What holds at every place of the destructor of a listener that had a
    thread when the destructor began, [cs0] being the log at that time. *)
Definition shutdown_inv (cs0 : list call) (c : Config) : Prop :=
  exists new,
    calls (world (state c)) = cs0 ++ new /\
    existsb is_callback (calls_after is_join new) = false /\
    match dtor c with
    | BeforeDtor =>
        shutdown_calls new = [] /\
        mSensorLooperThread (this (state c)) <> None
    | AtWake =>
        shutdown_calls new = [ThreadRequestExit] /\
        mSensorLooperThread (this (state c)) <> None
    | AtJoin =>
        shutdown_calls new = [ThreadRequestExit; ThreadWake] /\
        mSensorLooperThread (this (state c)) <> None
    | AtKillLooper =>
        shutdown_calls new = [ThreadRequestExit; ThreadWake; ThreadJoin] /\
        pump c = PumpExited
    | DtorDone =>
        pump c = PumpExited /\
        (shutdown_calls new = [ThreadRequestExit; ThreadWake; ThreadJoin] \/
         exists looper fd, shutdown_calls new = shutdown_order looper fd)
    end.

(** ** What the handler is expected to deliver *)

(** The readings of the accelerometer samples of a batch, in order; events
    of other types give none.  [None] when a reading is undefined. *)
Fixpoint readings (lm : Libm) (es : list ASensorEvent)
  : option (list (Z * Z)) :=
  match es with
  | [] => Some []
  | e :: es' =>
      if ev_type e =? TYPE_ACCELEROMETER then
        match accel_reading lm (azimuth e) (pitch e) (roll e) with
        | Some r =>
            match readings lm es' with
            | Some rs => Some (r :: rs)
            | None => None
            end
        | None => None
        end
      else readings lm es'
  end.

(** The callback calls a listener in state [l] makes for these readings. *)
Definition dispatched (SENSOR_ORIENTATION : Z) (l : SensorListener)
  (rs : list (Z * Z)) : list call :=
  match mOrientationCb l with
  | Some fn =>
      if Z.land (sensorsEnabled l) SENSOR_ORIENTATION =? 0 then []
      else map (fun r => OrientationCb fn (fst r) (snd r) (mCbCookie l)) rs
  | None => []
  end.

(** The error line of the handler, written unless the read ended on
    [-EAGAIN]. *)
Definition read_failure_log (w : World) : list call :=
  if Zpos (read_errno w) =? EAGAIN then []
  else [LOGE "reading events failed"].

(** ** Clients *)

Section Clients.

Variable SENSOR_ORIENTATION : Z.
Variable lm : Libm.

(** A call on a live listener: the five public member functions, and the
    handler as the looper calls it. *)
Inductive api : Type :=
| Initialize
| SetCallbacks (orientation_cb cookie : option address)
| EnableSensor (type : Z)
| DisableSensor (type : Z)
| HandleOrientation (orientation tilt : Z)
| SensorEvents (fd events : Z).

Definition api_call (a : api) : M unit :=
  match a with
  | Initialize => initialize ;;; ret tt
  | SetCallbacks orientation_cb cookie => setCallbacks orientation_cb cookie
  | EnableSensor type => enableSensor SENSOR_ORIENTATION type
  | DisableSensor type => disableSensor SENSOR_ORIENTATION type
  | HandleOrientation orientation tilt =>
      handleOrientation SENSOR_ORIENTATION orientation tilt
  | SensorEvents fd events =>
      sensor_events_listener SENSOR_ORIENTATION lm fd events ;;; ret tt
  end.

(** What happens to a listener between construction and destruction: a
    call, or the services around it changing on their own (samples arrive,
    a sensor appears or goes, allocation starts to fail); the log of calls
    made so far is kept. *)
Inductive event : Type :=
| Call (a : api)
| Services (w : World).

Definition event_step (e : event) : M unit :=
  match e with
  | Call a => api_call a
  | Services w => modify_world (fun w0 => set_calls (calls w0) w)
  end.

Fixpoint run (evs : list event) : M unit :=
  match evs with
  | [] => ret tt
  | e :: evs' => event_step e ;;; run evs'
  end.

End Clients.

(** The calls that switch the physical sensor: [true] for an enable,
    [false] for a disable, in the order of the log. *)
Fixpoint toggles (cs : list call) : list bool :=
  match cs with
  | [] => []
  | QueueEnableSensor _ _ :: cs' => true :: toggles cs'
  | QueueDisableSensor _ _ :: cs' => false :: toggles cs'
  | _ :: cs' => toggles cs'
  end.

(** The toggles alternate, the first being [expect]. *)
Fixpoint alternating (expect : bool) (ts : list bool) : bool :=
  match ts with
  | [] => true
  | t :: ts' => Bool.eqb t expect && alternating (negb expect) ts'
  end.

Definition is_remove_fd (c : call) : bool :=
  match c with
  | LooperRemoveFd _ _ => true
  | _ => false
  end.

(** What a call adds to the log and does to the mask. *)
Definition step_effect (SENSOR_ORIENTATION : Z) (s s' : State) : Prop :=
  mLooper (this s') = mLooper (this s) /\
  (forall t, mSensorLooperThread (this s) = Some t -> running t = true ->
             mSensorLooperThread (this s') = Some t) /\
  exists new,
    calls (world s') = calls (world s) ++ new /\
    existsb is_remove_fd new = false /\
    (forall fn o t ck,
        In (OrientationCb fn o t ck) new ->
        mOrientationCb (this s) = Some fn /\ mCbCookie (this s) = ck) /\
    ((sensorsEnabled (this s') = sensorsEnabled (this s) /\ toggles new = [])
     \/
     (Z.land (sensorsEnabled (this s)) SENSOR_ORIENTATION = 0 /\
      SENSOR_ORIENTATION <> 0 /\
      sensorsEnabled (this s')
      = Z.lor (sensorsEnabled (this s)) SENSOR_ORIENTATION /\
      toggles new = [true])
     \/
     (Z.land (sensorsEnabled (this s)) SENSOR_ORIENTATION <> 0 /\
      sensorsEnabled (this s')
      = Z.land (sensorsEnabled (this s)) (Z.lnot SENSOR_ORIENTATION) /\
      toggles new = [false])).

(** A day in the life of the example listener. *)
Definition example_day : list event :=
  [Call Initialize;
   Call (SetCallbacks (Some 1%positive) (Some 2%positive));
   Call (EnableSensor example_SENSOR_ORIENTATION);
   Services
     (set_pending [example_sample_up; example_sample_up] example_world);
   Call (SensorEvents 7 1);
   Call (DisableSensor example_SENSOR_ORIENTATION);
   Call (HandleOrientation 0 57);
   Call (SetCallbacks None (Some 9%positive));
   Call (EnableSensor example_SENSOR_ORIENTATION);
   Call (HandleOrientation 90 0)].

(** ** Proof steps *)

Ltac solve_status :=
  simpl;
  repeat match goal with
         | |- _ /\ _ => split
         | |- _ <-> _ => split
         | |- _ -> _ => intro
         | H : _ /\ _ |- _ => destruct H
         | H : exists _, _ |- _ => destruct H
         | H : _ \/ _ |- _ => destruct H
         | H : Some _ = Some _ |- _ => inversion H; subst; clear H
         end;
  simpl in *;
  try discriminate; try congruence;
  try (rewrite !in_app_iff; simpl; tauto);
  try (left; split; reflexivity);
  try (right; eexists; split; reflexivity);
  try (eexists; split; reflexivity).

Ltac run_monad :=
  unfold bind, ret, fail, get_this, get_world, modify_this, modify_world,
    emit, deref, getDefaultSensor in *; simpl in *.

(** * Properties *)

(** ** Arithmetic of the handler *)

Example RADIANS_2_DEG_value :
  RADIANS_2_DEG = S754_finite false 15019745 (-18).
Proof. vm_compute. reflexivity. Qed.

Example radius_straight_up : radius F32.zero F32.zero f_one = f_one.
Proof. vm_compute. reflexivity. Qed.

Example cast_pio2 : cast_times_RADIANS_2_DEG f_pio2 = Some 57.
Proof. vm_compute. reflexivity. Qed.

Example cast_minus_pio4 : cast_times_RADIANS_2_DEG f_minus_pio4 = Some 0.
Proof. vm_compute. reflexivity. Qed.

(** The thresholds are inclusive. *)
Example discretize_boundaries :
  map discretize [0; 49; 50; 169; 170; 249; 250; 359]
  = [0; 0; 90; 90; 180; 180; 270; 270].
Proof. reflexivity. Qed.

Lemma discretize_range (o : Z) :
  In (discretize o) [0; 90; 180; 270].
Proof.
  unfold discretize.
  destruct (DEGREES_270_THRESH <=? o); [simpl; tauto|].
  destruct (DEGREES_180_THRESH <=? o); [simpl; tauto|].
  destruct (DEGREES_90_THRESH <=? o); simpl; tauto.
Qed.

Lemma accel_orient_range (lm : Libm) (x y : float) (o : Z) :
  accel_orient lm x y = Some o -> In o [0; 90; 180; 270].
Proof.
  unfold accel_orient.
  destruct (cast_times_RADIANS_2_DEG _) as [r|]; [|discriminate].
  intros H; injection H as <-. apply discretize_range.
Qed.

(** Whatever the cast leaves of an angle in radians is multiplied by
    57.29578 afterwards: an integral part of -1, 0 or 1 gives -57, 0 or 57. *)
Lemma cast_times_small (f : float) (k r : Z) :
  float_to_int f = Some k -> -1 <= k <= 1 ->
  cast_times_RADIANS_2_DEG f = Some r ->
  r = -57 \/ r = 0 \/ r = 57.
Proof.
  intros Hk Hr. unfold cast_times_RADIANS_2_DEG. rewrite Hk.
  assert (Hc : k = -1 \/ k = 0 \/ k = 1) by lia.
  destruct Hc as [-> | [-> | ->]]; vm_compute; intros H; injection H as <-;
    tauto.
Qed.

(** The arc sine lies between -pi/2 and pi/2, so its integral part is -1, 0
    or 1; with such a library no sample is ever given a tilt of 90. *)
Lemma accel_tilt_values (lm : Libm) (x y z : float) (t : Z)
  (Hasin : forall a k, float_to_int (asinf lm a) = Some k -> -1 <= k <= 1) :
  accel_tilt lm x y z = Some t -> t = -57 \/ t = 0 \/ t = 57.
Proof.
  unfold accel_tilt. intros H.
  destruct (float_to_int (asinf lm (F32.div z (radius x y z)))) as [k|] eqn:E.
  - eapply cast_times_small; eauto.
  - unfold cast_times_RADIANS_2_DEG in H. rewrite E in H. discriminate.
Qed.

(** C1, at the sample the specification singles out.  For the sample
    (0, 0, 1), gravity straight up, [z / radius] is 1; with a C library
    whose [asinf(1)] is the float nearest to pi/2, the tilt handed on is 57:
    the cast truncates the angle in radians to 1 before the multiplication
    by [RADIANS_2_DEG].  The specification expects about 90. *)
Theorem tilt_straight_up (lm : Libm) (H : asinf lm f_one = f_pio2) :
  F32.div f_one (radius F32.zero F32.zero f_one) = f_one /\
  accel_tilt lm F32.zero F32.zero f_one = Some 57.
Proof.
  split; [vm_compute; reflexivity|].
  unfold accel_tilt.
  replace (F32.div f_one (radius F32.zero F32.zero f_one)) with f_one
    by (vm_compute; reflexivity).
  rewrite H. vm_compute. reflexivity.
Qed.

Lemma tilt_straight_up_witness :
  F32.div f_one (radius F32.zero F32.zero f_one) = f_one /\
  accel_tilt example_libm F32.zero F32.zero f_one = Some 57.
Proof. apply tilt_straight_up. reflexivity. Defined.

(** C2, at the degenerate sample.  For the
    sample (0, 0, 0) the radius is zero and [z / radius] is evaluated all the
    same, there is no test before the division; the quotient 0/0 is a NaN,
    and with a C library whose [asinf] hands a NaN through, the conversion
    to [int] that follows is undefined: no tilt and no reading is defined. *)
Theorem zero_sample_undefined (lm : Libm) (H : asinf lm S754_nan = S754_nan) :
  radius F32.zero F32.zero F32.zero = F32.zero /\
  F32.div F32.zero (radius F32.zero F32.zero F32.zero) = S754_nan /\
  accel_tilt lm F32.zero F32.zero F32.zero = None /\
  accel_reading lm F32.zero F32.zero F32.zero = None.
Proof.
  assert (Ht : accel_tilt lm F32.zero F32.zero F32.zero = None).
  { unfold accel_tilt.
    replace (F32.div F32.zero (radius F32.zero F32.zero F32.zero))
      with S754_nan by (vm_compute; reflexivity).
    rewrite H. reflexivity. }
  split; [vm_compute; reflexivity|].
  split; [vm_compute; reflexivity|].
  split; [exact Ht|].
  unfold accel_reading. rewrite Ht. reflexivity.
Qed.

Lemma zero_sample_undefined_witness :
  radius F32.zero F32.zero F32.zero = F32.zero /\
  F32.div F32.zero (radius F32.zero F32.zero F32.zero) = S754_nan /\
  accel_tilt example_libm F32.zero F32.zero F32.zero = None /\
  accel_reading example_libm F32.zero F32.zero F32.zero = None.
Proof. apply zero_sample_undefined. reflexivity. Defined.

(** C5, at a sample where the code leaves the specification.  For the
    sample x = 1, y = 1 the angle atan2(-1, 1) is -pi/4, that is -45
    degrees, 315 after normalisation, which the specification sends to 270.
    The code truncates -0.785 radians to 0 before converting to degrees,
    and hands on 0. *)
Theorem orient_minus_45_degrees (lm : Libm)
  (H : atan2f lm (F32.neg f_one) f_one = f_minus_pio4) :
  accel_orient lm f_one f_one = Some 0.
Proof.
  unfold accel_orient. rewrite H. vm_compute. reflexivity.
Qed.

Lemma orient_minus_45_degrees_witness :
  accel_orient example_libm f_one f_one = Some 0.
Proof. apply orient_minus_45_degrees. reflexivity. Defined.

(** ** Bit masks *)

Lemma land_lor_absorb (a b : Z) : Z.land (Z.lor a b) b = b.
Proof.
  apply Z.bits_inj'. intros n _.
  rewrite Z.land_spec, Z.lor_spec.
  destruct (Z.testbit a n), (Z.testbit b n); reflexivity.
Qed.

Lemma land_clear (a b : Z) : Z.land (Z.land a (Z.lnot b)) b = 0.
Proof.
  rewrite <- Z.land_assoc, (Z.land_comm (Z.lnot b) b), Z.land_lnot_diag.
  apply Z.land_0_r.
Qed.

(** ** Callback slot, dispatch and sensor subscription *)

Section ListenerProperties.

Variable SENSOR_ORIENTATION : Z.

(** C3, as the code has it.  [setCallbacks] always succeeds and touches
    the two fields of the slot only; the function pointer is replaced when
    the argument is not null and kept when it is null; the context is
    replaced by the argument in both cases. *)
Theorem setCallbacks_spec (orientation_cb cookie : option address)
  (s : State) :
  exists s',
    setCallbacks orientation_cb cookie s = Some (tt, s') /\
    world s' = world s /\
    mOrientationCb (this s') =
      match orientation_cb with
      | Some fn => Some fn
      | None => mOrientationCb (this s)
      end /\
    mCbCookie (this s') = cookie /\
    sensorsEnabled (this s') = sensorsEnabled (this s) /\
    mLooper (this s') = mLooper (this s) /\
    mSensorEventQueue (this s') = mSensorEventQueue (this s) /\
    mSensorLooperThread (this s') = mSensorLooperThread (this s).
Proof.
  unfold setCallbacks.
  destruct orientation_cb as [fn|]; run_monad; eexists;
    (split; [reflexivity|]); simpl; repeat split; reflexivity.
Qed.

(** [handleOrientation] written out on a state. *)
Lemma handleOrientation_unfold (orientation tilt : Z) (s : State) :
  handleOrientation SENSOR_ORIENTATION orientation tilt s =
    Some (tt,
          match mOrientationCb (this s) with
          | Some fn =>
              if Z.land (sensorsEnabled (this s)) SENSOR_ORIENTATION =? 0
              then s
              else
                {| this := this s;
                   world :=
                     set_calls
                       (calls (world s)
                          ++ [OrientationCb fn orientation tilt
                                (mCbCookie (this s))])
                       (world s) |}
          | None => s
          end).
Proof.
  unfold handleOrientation. run_monad. destruct s as [l w]; simpl.
  destruct (mOrientationCb l) as [fn|]; [|reflexivity].
  destruct (Z.land (sensorsEnabled l) SENSOR_ORIENTATION =? 0); reflexivity.
Qed.

(** C7.  [handleOrientation] always returns and leaves the listener as it
    was.  When a callback is registered and the orientation bit of the
    mask is set, it makes exactly one call, of that callback, with the
    orientation, the tilt and the stored context; in every other state it
    makes no call and the whole state is unchanged. *)
Theorem handleOrientation_spec (orientation tilt : Z) (s : State) :
  exists s',
    handleOrientation SENSOR_ORIENTATION orientation tilt s
    = Some (tt, s') /\
    this s' = this s /\
    ((exists fn,
         mOrientationCb (this s) = Some fn /\
         Z.land (sensorsEnabled (this s)) SENSOR_ORIENTATION <> 0 /\
         world s' =
           set_calls
             (calls (world s)
                ++ [OrientationCb fn orientation tilt (mCbCookie (this s))])
             (world s))
     \/
     ((mOrientationCb (this s) = None \/
       Z.land (sensorsEnabled (this s)) SENSOR_ORIENTATION = 0) /\
      s' = s)).
Proof.
  rewrite handleOrientation_unfold.
  destruct (mOrientationCb (this s)) as [fn|] eqn:Ecb.
  - destruct (Z.eqb_spec
                (Z.land (sensorsEnabled (this s)) SENSOR_ORIENTATION) 0)
      as [E0|E0].
    + eexists; split; [reflexivity|]. split; [reflexivity|].
      right. split; [right; exact E0 | reflexivity].
    + eexists; split; [reflexivity|]. split; [reflexivity|].
      left. exists fn. repeat split; trivial.
  - eexists; split; [reflexivity|]. split; [reflexivity|].
    right. split; [left; reflexivity | reflexivity].
Qed.

Lemma orientation_bit_nonzero (type : Z) :
  Z.land type SENSOR_ORIENTATION <> 0 -> SENSOR_ORIENTATION <> 0.
Proof. intros H E. apply H. rewrite E. apply Z.land_0_r. Qed.

(** The two functions written out on a state. *)
Lemma enableSensor_unfold (type : Z) (s : State) :
  enableSensor SENSOR_ORIENTATION type s =
    if negb (Z.land type SENSOR_ORIENTATION =? 0)
       && (Z.land (sensorsEnabled (this s)) SENSOR_ORIENTATION =? 0)
    then
      match default_accelerometer (world s), mSensorEventQueue (this s) with
      | Some sensor, Some q =>
          Some (tt,
                {| this :=
                     set_sensorsEnabled
                       (Z.lor (sensorsEnabled (this s)) SENSOR_ORIENTATION)
                       (this s);
                   world :=
                     set_calls
                       (calls (world s)
                          ++ [QueueEnableSensor (queue_addr q) sensor;
                              QueueSetEventRate (queue_addr q) sensor
                                (ms2ns 100)])
                       (world s) |})
      | Some _, None => None
      | None, _ => Some (tt, s)
      end
    else Some (tt, s).
Proof.
  unfold enableSensor. run_monad. destruct s as [l w]; simpl.
  destruct (Z.land type SENSOR_ORIENTATION =? 0);
    destruct (Z.land (sensorsEnabled l) SENSOR_ORIENTATION =? 0);
    simpl; try reflexivity.
  destruct (default_accelerometer w); [|reflexivity].
  destruct (mSensorEventQueue l); [|reflexivity].
  simpl. unfold set_calls; simpl. rewrite <- app_assoc. reflexivity.
Qed.

Lemma disableSensor_unfold (type : Z) (s : State) :
  disableSensor SENSOR_ORIENTATION type s =
    if negb (Z.land type SENSOR_ORIENTATION =? 0)
       && negb (Z.land (sensorsEnabled (this s)) SENSOR_ORIENTATION =? 0)
    then
      match default_accelerometer (world s), mSensorEventQueue (this s) with
      | Some sensor, Some q =>
          Some (tt,
                {| this :=
                     set_sensorsEnabled
                       (Z.land (sensorsEnabled (this s))
                          (Z.lnot SENSOR_ORIENTATION))
                       (this s);
                   world :=
                     set_calls
                       (calls (world s)
                          ++ [QueueDisableSensor (queue_addr q) sensor])
                       (world s) |})
      | Some _, None => None
      | None, _ => Some (tt, s)
      end
    else Some (tt, s).
Proof.
  unfold disableSensor. run_monad. destruct s as [l w]; simpl.
  destruct (Z.land type SENSOR_ORIENTATION =? 0);
    destruct (Z.land (sensorsEnabled l) SENSOR_ORIENTATION =? 0);
    simpl; try reflexivity.
  destruct (default_accelerometer w); [|reflexivity].
  destruct (mSensorEventQueue l); reflexivity.
Qed.

(** A call that finds the bit already in the asked state does nothing. *)
Lemma enableSensor_enabled (type : Z) (s : State) :
  Z.land (sensorsEnabled (this s)) SENSOR_ORIENTATION <> 0 ->
  enableSensor SENSOR_ORIENTATION type s = Some (tt, s).
Proof.
  intros H. rewrite enableSensor_unfold.
  apply Z.eqb_neq in H. rewrite H, andb_false_r. reflexivity.
Qed.

Lemma disableSensor_disabled (type : Z) (s : State) :
  Z.land (sensorsEnabled (this s)) SENSOR_ORIENTATION = 0 ->
  disableSensor SENSOR_ORIENTATION type s = Some (tt, s).
Proof.
  intros H. rewrite disableSensor_unfold.
  apply Z.eqb_eq in H. rewrite H, andb_false_r. reflexivity.
Qed.

(** After a call that did something, the bit is in the asked state. *)
Lemma enableSensor_sets_bit (type : Z) (s s' : State) :
  enableSensor SENSOR_ORIENTATION type s = Some (tt, s') ->
  s' = s \/ Z.land (sensorsEnabled (this s')) SENSOR_ORIENTATION <> 0.
Proof.
  rewrite enableSensor_unfold.
  destruct (Z.eqb_spec (Z.land type SENSOR_ORIENTATION) 0) as [Et|Et];
    simpl; [intros H; inversion H; now left|].
  destruct (Z.land (sensorsEnabled (this s)) SENSOR_ORIENTATION =? 0);
    [|intros H; inversion H; now left].
  destruct (default_accelerometer (world s)) as [sensor|];
    [|intros H; inversion H; now left].
  destruct (mSensorEventQueue (this s)) as [q|]; [|discriminate].
  intros H; inversion H; subst s'. right. simpl.
  rewrite land_lor_absorb. eapply orientation_bit_nonzero; eauto.
Qed.

Lemma disableSensor_clears_bit (type : Z) (s s' : State) :
  disableSensor SENSOR_ORIENTATION type s = Some (tt, s') ->
  s' = s \/ Z.land (sensorsEnabled (this s')) SENSOR_ORIENTATION = 0.
Proof.
  rewrite disableSensor_unfold.
  destruct (negb _ && _); [|intros H; inversion H; now left].
  destruct (default_accelerometer (world s)) as [sensor|];
    [|intros H; inversion H; now left].
  destruct (mSensorEventQueue (this s)) as [q|]; [|discriminate].
  intros H; inversion H; subst s'. right. simpl. apply land_clear.
Qed.

(** C8.  Calling [enableSensor] twice in a row gives the state (mask,
    subsystem calls and all) of calling it once, and likewise for
    [disableSensor]; enabling when the orientation bit is set and
    disabling when it is clear change nothing. *)
Theorem sensor_toggle_idempotent (type : Z) (s : State) :
  (enableSensor SENSOR_ORIENTATION type ;;;
   enableSensor SENSOR_ORIENTATION type) s
  = enableSensor SENSOR_ORIENTATION type s /\
  (disableSensor SENSOR_ORIENTATION type ;;;
   disableSensor SENSOR_ORIENTATION type) s
  = disableSensor SENSOR_ORIENTATION type s /\
  (Z.land (sensorsEnabled (this s)) SENSOR_ORIENTATION <> 0 ->
   enableSensor SENSOR_ORIENTATION type s = Some (tt, s)) /\
  (Z.land (sensorsEnabled (this s)) SENSOR_ORIENTATION = 0 ->
   disableSensor SENSOR_ORIENTATION type s = Some (tt, s)).
Proof.
  split; [|split; [|split]].
  - unfold bind at 1.
    destruct (enableSensor SENSOR_ORIENTATION type s) as [[[] s']|] eqn:E;
      [|reflexivity].
    destruct (enableSensor_sets_bit _ _ _ E) as [-> | Hbit];
      [exact E | now apply enableSensor_enabled].
  - unfold bind at 1.
    destruct (disableSensor SENSOR_ORIENTATION type s) as [[[] s']|] eqn:E;
      [|reflexivity].
    destruct (disableSensor_clears_bit _ _ _ E) as [-> | Hbit];
      [exact E | now apply disableSensor_disabled].
  - apply enableSensor_enabled.
  - apply disableSensor_disabled.
Qed.

(** What one effective call does: the physical sensor is enabled once,
    its rate is set once to 100 ms, and the bit is set. *)
Lemma enableSensor_effect (type : Z) (s : State) (sensor : address)
  (q : SensorEventQueue) :
  Z.land type SENSOR_ORIENTATION <> 0 ->
  Z.land (sensorsEnabled (this s)) SENSOR_ORIENTATION = 0 ->
  default_accelerometer (world s) = Some sensor ->
  mSensorEventQueue (this s) = Some q ->
  enableSensor SENSOR_ORIENTATION type s =
    Some (tt,
          {| this :=
               set_sensorsEnabled
                 (Z.lor (sensorsEnabled (this s)) SENSOR_ORIENTATION)
                 (this s);
             world :=
               set_calls
                 (calls (world s)
                    ++ [QueueEnableSensor (queue_addr q) sensor;
                        QueueSetEventRate (queue_addr q) sensor 100000000])
                 (world s) |}).
Proof.
  intros Ht Hm Hs Hq. rewrite enableSensor_unfold.
  apply Z.eqb_neq in Ht. apply Z.eqb_eq in Hm. rewrite Ht, Hm, Hs, Hq.
  reflexivity.
Qed.

(** C9.  When the sensor manager has no default accelerometer,
    [enableSensor] returns normally and the state is what it was: the
    mask is unchanged and no call reaches the subsystem. *)
Theorem enableSensor_no_accelerometer (type : Z) (s : State)
  (H : default_accelerometer (world s) = None) :
  enableSensor SENSOR_ORIENTATION type s = Some (tt, s).
Proof.
  rewrite enableSensor_unfold, H.
  destruct (negb _ && _); reflexivity.
Qed.

(** C10.  For a [type] without the orientation bit, [enableSensor] and
    [disableSensor] return normally and leave the state, mask and
    subsystem included, as it was. *)
Theorem other_kinds_ignored (type : Z) (s : State)
  (H : Z.land type SENSOR_ORIENTATION = 0) :
  enableSensor SENSOR_ORIENTATION type s = Some (tt, s) /\
  disableSensor SENSOR_ORIENTATION type s = Some (tt, s).
Proof.
  rewrite enableSensor_unfold, disableSensor_unfold.
  apply Z.eqb_eq in H. rewrite H. split; reflexivity.
Qed.

(** ** Initialisation *)

Lemma initialize_returns (s : State) :
  exists r s', initialize s = Some (r, s').
Proof.
  unfold initialize, Thread_run. run_monad.
  destruct s as [[se cb ck lp q th] w]; simpl.
  destruct (next_queue w); simpl; [|eauto].
  destruct th as [[tl [|] ep]|]; simpl.
  - eauto.
  - destruct (spawn_ok w); simpl; eauto.
  - destruct (thread_alloc_ok w); simpl; [|eauto].
    destruct (spawn_ok w); simpl; eauto.
Qed.

(** C4, as the code has it.  [initialize] always returns, and leaves the
    member [mLooper] as it found it.  It returns [NO_INIT] exactly when no
    event queue could be created, [NO_MEMORY] exactly when no thread
    object exists and none could be allocated, [INVALID_OPERATION] exactly
    when the thread object was already running, which it also logs, and
    [NO_ERROR] exactly when this call started the thread, and
    [UNKNOWN_ERROR], the status of the failed start, exactly when the
    thread could not be started. *)
Theorem initialize_status (s : State) :
  exists r s',
    initialize s = Some (r, s') /\
    mLooper (this s') = mLooper (this s) /\
    (r = NO_INIT <-> next_queue (world s) = None) /\
    (r = NO_MEMORY <->
     next_queue (world s) <> None /\
     mSensorLooperThread (this s) = None /\
     thread_alloc_ok (world s) = false) /\
    (r = INVALID_OPERATION <->
     next_queue (world s) <> None /\
     exists t, mSensorLooperThread (this s) = Some t /\ running t = true) /\
    (r = INVALID_OPERATION ->
     r <> NO_ERROR /\
     In (LOGE "thread already running ?!?") (calls (world s'))) /\
    (r = NO_ERROR <->
     next_queue (world s) <> None /\
     spawn_ok (world s) = true /\
     ((mSensorLooperThread (this s) = None /\
       thread_alloc_ok (world s) = true) \/
      exists t, mSensorLooperThread (this s) = Some t /\ running t = false)) /\
    (r = UNKNOWN_ERROR <->
     next_queue (world s) <> None /\
     spawn_ok (world s) = false /\
     ((mSensorLooperThread (this s) = None /\
       thread_alloc_ok (world s) = true) \/
      exists t, mSensorLooperThread (this s) = Some t /\ running t = false)).
Proof.
  unfold initialize, Thread_run. run_monad.
  destruct s as [[se cb ck lp q th] w]; simpl.
  destruct (next_queue w) as [nq|]; simpl;
    [destruct th as [[tl [|] ep]|]; simpl;
     [ | destruct (spawn_ok w); simpl
       | destruct (thread_alloc_ok w); simpl;
         [destruct (spawn_ok w); simpl|] ] | ];
    (do 2 eexists; split; [reflexivity|]); solve_status.
Qed.

End ListenerProperties.

(** ** The handler leaves the listener alone *)

Section HandlerProperties.

Variable SENSOR_ORIENTATION : Z.
Variable lm : Libm.

Lemma quiet_refl (s : State) : quiet s s.
Proof.
  split; [reflexivity|]. exists []. rewrite app_nil_r. split; reflexivity.
Qed.

Lemma quiet_trans (s1 s2 s3 : State) :
  quiet s1 s2 -> quiet s2 s3 -> quiet s1 s3.
Proof.
  intros [Ht1 [n1 [Hc1 Hs1]]] [Ht2 [n2 [Hc2 Hs2]]].
  split; [congruence|]. exists (n1 ++ n2). split.
  - rewrite Hc2, Hc1, app_assoc. reflexivity.
  - unfold shutdown_calls in *. rewrite filter_app, Hs1, Hs2. reflexivity.
Qed.

Lemma handleOrientation_quiet (orientation tilt : Z) (s s' : State) :
  handleOrientation SENSOR_ORIENTATION orientation tilt s = Some (tt, s') ->
  quiet s s'.
Proof.
  rewrite handleOrientation_unfold. intros H; inversion H; subst; clear H.
  destruct (mOrientationCb (this s)) as [fn|]; [|apply quiet_refl].
  destruct (_ =? 0); [apply quiet_refl|].
  split; [reflexivity|]. eexists. split; reflexivity.
Qed.

Lemma handle_event_quiet (e : ASensorEvent) (s s' : State) :
  handle_event SENSOR_ORIENTATION lm e s = Some (tt, s') -> quiet s s'.
Proof.
  unfold handle_event. destruct (ev_type e =? TYPE_ACCELEROMETER).
  - destruct (accel_reading lm _ _ _) as [[o t]|]; [|discriminate].
    apply handleOrientation_quiet.
  - destruct (ev_type e =? TYPE_GYROSCOPE);
      intros H; inversion H; apply quiet_refl.
Qed.

Lemma handle_event_pending (e : ASensorEvent) (s s' : State) :
  handle_event SENSOR_ORIENTATION lm e s = Some (tt, s') ->
  pending (world s') = pending (world s).
Proof.
  unfold handle_event. destruct (ev_type e =? TYPE_ACCELEROMETER).
  - destruct (accel_reading lm _ _ _) as [[o t]|]; [|discriminate].
    rewrite handleOrientation_unfold. intros H; inversion H; subst.
    destruct (mOrientationCb (this s)); [destruct (_ =? 0)|]; reflexivity.
  - destruct (ev_type e =? TYPE_GYROSCOPE);
      intros H; inversion H; reflexivity.
Qed.

Lemma handle_events_quiet (es : list ASensorEvent) (s s' : State) :
  handle_events SENSOR_ORIENTATION lm es s = Some (tt, s') ->
  quiet s s' /\ pending (world s') = pending (world s).
Proof.
  revert s. induction es as [|e es IH]; intros s; simpl.
  - intros H; inversion H. split; [apply quiet_refl | reflexivity].
  - unfold bind at 1.
    destruct (handle_event SENSOR_ORIENTATION lm e s) as [[[] s1]|] eqn:E;
      [|discriminate].
    intros H. destruct (IH _ H) as [Hq Hp]. split.
    + eapply quiet_trans; [eapply handle_event_quiet; eauto | exact Hq].
    + rewrite Hp. eapply handle_event_pending; eauto.
Qed.

Lemma queue_read_cases (n : nat) (s s' : State)
  (r : Z * list ASensorEvent) :
  queue_read n s = Some (r, s') ->
  this s' = this s /\
  calls (world s') = calls (world s) /\
  ((pending (world s) = [] /\ s' = s /\ fst r < 0) \/
   (pending (world s) <> [] /\
    pending (world s') = skipn n (pending (world s)) /\
    snd r = firstn n (pending (world s)) /\
    fst r = Z.of_nat (List.length (snd r)))).
Proof.
  unfold queue_read. run_monad. destruct s as [l w]; simpl.
  destruct (mSensorEventQueue l); simpl; [|discriminate].
  destruct (pending w) as [|e es] eqn:Ep; simpl; intros H; inversion H;
    subst; simpl.
  - split; [reflexivity|]. split; [reflexivity|]. left.
    split; [reflexivity|]. split; [reflexivity|]. lia.
  - split; [reflexivity|]. split; [reflexivity|]. right.
    split; [discriminate|]. repeat split; reflexivity.
Qed.

Lemma read_loop_quiet (fuel : nat) (s s' : State) (r : option Z) :
  read_loop SENSOR_ORIENTATION lm fuel s = Some (r, s') -> quiet s s'.
Proof.
  revert s. induction fuel as [|fuel IH]; intros s; simpl.
  - intros H; inversion H. apply quiet_refl.
  - unfold bind at 1.
    destruct (queue_read 8 s) as [[rd s1]|] eqn:Er; [|discriminate].
    destruct (queue_read_cases _ _ _ _ Er) as [Ht [Hc _]].
    assert (Hq1 : quiet s s1).
    { split; [exact Ht|]. exists []. rewrite app_nil_r.
      split; [exact Hc | reflexivity]. }
    destruct (0 <? fst rd).
    + unfold bind at 1.
      destruct (handle_events SENSOR_ORIENTATION lm (snd rd) s1)
        as [[[] s2]|] eqn:Eh; [|discriminate].
      intros H. apply handle_events_quiet in Eh. destruct Eh as [Hq2 _].
      eapply quiet_trans; [exact Hq1|].
      eapply quiet_trans; [exact Hq2 | eauto].
    + intros H; inversion H; subst. exact Hq1.
Qed.

(** The loop never runs out of passes: with more fuel than samples
    waiting, it ends on a value of [num_sensors] that is not positive,
    the queue then being empty. *)
Lemma read_loop_ends (fuel : nat) (s s' : State) (r : option Z) :
  (List.length (pending (world s)) < fuel)%nat ->
  read_loop SENSOR_ORIENTATION lm fuel s = Some (r, s') ->
  pending (world s') = [] /\ exists n, r = Some n /\ n < 0.
Proof.
  revert s. induction fuel as [|fuel IH]; intros s Hlen; [lia|]. simpl.
  unfold bind at 1.
  destruct (queue_read 8 s) as [[rd s1]|] eqn:Er; [|discriminate].
  destruct (queue_read_cases _ _ _ _ Er)
    as [_ [_ [[He [-> Hneg]] | [Hne [Hp [Hs Hf]]]]]].
  - destruct (Z.ltb_spec 0 (fst rd)) as [Hgt|Hle]; [lia|].
    intros H; inversion H; subst. split; [exact He|]. eauto.
  - assert (Hpos : 0 < fst rd).
    { rewrite Hf, Hs. destruct (pending (world s)); [congruence|].
      simpl. lia. }
    apply Z.ltb_lt in Hpos. rewrite Hpos. unfold bind at 1.
    destruct (handle_events SENSOR_ORIENTATION lm (snd rd) s1)
      as [[[] s2]|] eqn:Eh; [|discriminate].
    apply handle_events_quiet in Eh. destruct Eh as [_ Hp2].
    apply IH. rewrite Hp2, Hp, length_skipn.
    destruct (pending (world s)); [congruence|]. simpl in *. lia.
Qed.

Lemma sensor_events_listener_quiet (fd events r : Z) (s s' : State) :
  sensor_events_listener SENSOR_ORIENTATION lm fd events s = Some (r, s') ->
  quiet s s' /\ r = 1 /\ pending (world s') = [].
Proof.
  unfold sensor_events_listener. unfold bind at 1, get_world. 
  unfold bind at 1.
  destruct (read_loop _ _ _ s) as [[ro s1]|] eqn:El; [|discriminate].
  pose proof (read_loop_quiet _ _ _ _ El) as Hq.
  destruct (read_loop_ends _ _ _ _ (Nat.lt_succ_diag_r _) El)
    as [Hp [n [-> Hn]]].
  destruct ((n <? 0) && negb (n =? - EAGAIN)); run_monad;
    intros H; inversion H; subst; simpl; (split; [|split; trivial]).
  - eapply quiet_trans; [exact Hq|]. split; [reflexivity|].
    eexists. split; reflexivity.
  - exact Hq.
Qed.

End HandlerProperties.

(** ** The destructor *)

Lemma destructor_as_steps (s : State) :
  destructor s =
    match dtor_run 4 BeforeDtor s with
    | Some (_, s') => Some (tt, s')
    | None => None
    end.
Proof.
  unfold destructor, kill_looper, Thread_requestExit. simpl.
  unfold kill_looper, Thread_requestExit. run_monad.
  destruct s as [[se cb ck lp q [t|]] w]; simpl;
    destruct lp as [looper|]; simpl; try reflexivity;
    destruct q as [qu|]; reflexivity.
Qed.

(** With a thread, a looper in the member and a queue, the destructor makes
    exactly the four shutdown calls, in order. *)
Lemma destructor_calls (s : State) (t : SensorLooperThread)
  (looper : address) (q : SensorEventQueue) :
  mSensorLooperThread (this s) = Some t ->
  mLooper (this s) = Some looper ->
  mSensorEventQueue (this s) = Some q ->
  exists s',
    destructor s = Some (tt, s') /\
    calls (world s') = calls (world s) ++ shutdown_order looper (queue_fd q) /\
    mSensorLooperThread (this s') = None /\
    mLooper (this s') = None.
Proof.
  intros Ht Hl Hq. unfold destructor, kill_looper, Thread_requestExit.
  run_monad. destruct s as [[se cb ck lp qq th] w]; simpl in *. subst.
  simpl. eexists. split; [reflexivity|]. simpl.
  rewrite <- !app_assoc. repeat split.
Qed.

(** A listener that was constructed and then initialised has no looper in
    the member: the destructor joins the thread and removes nothing. *)
Lemma destructor_after_initialize (junk : option address) (w : World)
  (r : status_t) (s1 : State) :
  initialize {| this := constructor junk; world := w |} = Some (r, s1) ->
  r = NO_ERROR ->
  exists s2,
    destructor s1 = Some (tt, s2) /\
    calls (world s2) =
      calls (world s1) ++ [ThreadRequestExit; ThreadWake; ThreadJoin].
Proof.
  unfold initialize, Thread_run, constructor. run_monad.
  destruct (next_queue w) as [q|]; simpl;
    [|intros H; inversion H; subst; discriminate].
  destruct (thread_alloc_ok w); simpl;
    [|intros H; inversion H; subst; discriminate].
  destruct (spawn_ok w); simpl;
    [|intros H; inversion H; subst; discriminate].
  intros H _. inversion H; subst. 
  unfold destructor, kill_looper, Thread_requestExit. run_monad.
  eexists. split; [reflexivity|]. simpl. rewrite <- !app_assoc. reflexivity.
Qed.

(** ** The destructor next to the looper thread *)

Lemma existsb_join_shutdown (cs : list call) :
  existsb is_join cs = existsb is_join (shutdown_calls cs).
Proof.
  induction cs as [|c cs IH]; [reflexivity|].
  destruct c; simpl; auto.
Qed.

Lemma calls_after_none (p : call -> bool) (cs : list call) :
  existsb p cs = false -> calls_after p cs = [].
Proof.
  induction cs as [|c cs IH]; simpl; [reflexivity|].
  destruct (p c); [discriminate | exact IH].
Qed.

Lemma calls_after_app_none (p : call -> bool) (cs ext : list call) :
  existsb p cs = false -> calls_after p (cs ++ ext) = calls_after p ext.
Proof.
  induction cs as [|c cs IH]; simpl; [reflexivity|].
  destruct (p c); [discriminate | exact IH].
Qed.

Lemma calls_after_app_some (p : call -> bool) (cs ext : list call) :
  existsb p cs = true -> calls_after p (cs ++ ext) = calls_after p cs ++ ext.
Proof.
  induction cs as [|c cs IH]; simpl; [discriminate|].
  destruct (p c); [reflexivity | exact IH].
Qed.

Lemma shutdown_calls_app (cs ext : list call) :
  shutdown_calls (cs ++ ext) = shutdown_calls cs ++ shutdown_calls ext.
Proof. apply filter_app. Qed.

Lemma shutdown_calls_no_join (cs : list call) :
  shutdown_calls cs = [] -> existsb is_join cs = false.
Proof. intros H. rewrite existsb_join_shutdown, H. reflexivity. Qed.

Section ShutdownProperties.

Variable SENSOR_ORIENTATION : Z.
Variable lm : Libm.

(** A call of the handler keeps the invariant: the looper thread is still
    polling, so the destructor has not passed the join. *)
Lemma quiet_preserves_inv (cs0 : list call) (c : Config) (s' : State) :
  shutdown_inv cs0 c ->
  pump c = Polling ->
  quiet (state c) s' ->
  shutdown_inv cs0 {| state := s'; dtor := dtor c; pump := Polling |}.
Proof.
  intros [new [Hc [Hcb Hpc]]] Hp [Ht [ext [Hc' Hext]]].
  exists (new ++ ext). simpl. rewrite Hc', Hc, app_assoc.
  split; [reflexivity|].
  assert (Hnj : shutdown_calls new = [] \/
                shutdown_calls new = [ThreadRequestExit] \/
                shutdown_calls new = [ThreadRequestExit; ThreadWake]).
  { destruct (dtor c); try tauto; destruct Hpc as [H1 H2]; congruence. }
  assert (Hj : existsb is_join new = false).
  { rewrite existsb_join_shutdown.
    destruct Hnj as [-> | [-> | ->]]; reflexivity. }
  split.
  - rewrite calls_after_app_none by exact Hj.
    rewrite calls_after_none by (apply shutdown_calls_no_join; exact Hext).
    reflexivity.
  - rewrite shutdown_calls_app, Hext, app_nil_r, Ht.
    destruct (dtor c); try exact Hpc; destruct Hpc as [H1 H2]; congruence.
Qed.

Lemma step_preserves_inv (cs0 : list call) (c c' : Config) :
  shutdown_inv cs0 c ->
  step SENSOR_ORIENTATION lm c c' ->
  shutdown_inv cs0 c'.
Proof.
  intros Hinv Hstep.
  destruct Hstep as [c pc' s' Hnd Hjoin Hd | c q r s' Hp Hq Hl | c Hp He
                    | c e].
  - (* the destructor advances *)
    destruct Hinv as [new [Hc [Hcb Hpc]]].
    destruct c as [[l w] pc pu]; simpl in *.
    destruct pc; simpl in Hd.
    + (* requestExit *)
      destruct Hpc as [Hs Ht].
      unfold Thread_requestExit in Hd. run_monad.
      destruct (mSensorLooperThread l) as [t|]; [|congruence].
      inversion Hd; subst; clear Hd.
      exists (new ++ [ThreadRequestExit]). simpl.
      rewrite Hc, <- app_assoc. split; [reflexivity|]. split.
      * rewrite calls_after_app_none by (apply shutdown_calls_no_join; exact Hs).
        reflexivity.
      * rewrite shutdown_calls_app, Hs. split; [reflexivity | discriminate].
    + (* wake *)
      destruct Hpc as [Hs Ht]. run_monad.
      inversion Hd; subst; clear Hd.
      exists (new ++ [ThreadWake]). simpl.
      rewrite Hc, <- app_assoc. split; [reflexivity|]. split.
      * rewrite calls_after_app_none
          by (rewrite existsb_join_shutdown, Hs; reflexivity).
        reflexivity.
      * rewrite shutdown_calls_app, Hs. split; [reflexivity | exact Ht].
    + (* join *)
      destruct Hpc as [Hs Ht]. run_monad.
      inversion Hd; subst; clear Hd.
      exists (new ++ [ThreadJoin]). simpl.
      rewrite Hc, <- app_assoc. split; [reflexivity|]. split.
      * rewrite calls_after_app_none
          by (rewrite existsb_join_shutdown, Hs; reflexivity).
        reflexivity.
      * rewrite shutdown_calls_app, Hs. split; [reflexivity | auto].
    + (* the looper member *)
      destruct Hpc as [Hs Hpu]. unfold kill_looper in Hd. run_monad.
      assert (Hj : existsb is_join new = true)
        by (rewrite existsb_join_shutdown, Hs; reflexivity).
      destruct (mLooper l) as [looper|].
      * destruct (mSensorEventQueue l) as [qu|]; [|discriminate].
        inversion Hd; subst; clear Hd.
        exists (new ++ [LooperRemoveFd looper (queue_fd qu)]). simpl.
        rewrite Hc, <- app_assoc. split; [reflexivity|]. split.
        -- rewrite calls_after_app_some by exact Hj.
           rewrite existsb_app, Hcb. reflexivity.
        -- split; [auto|]. right. exists looper, (queue_fd qu).
           rewrite shutdown_calls_app, Hs. reflexivity.
      * inversion Hd; subst; clear Hd.
        exists new. simpl. repeat split; auto.
    + congruence.
  - (* the handler runs on the looper thread *)
    apply sensor_events_listener_quiet in Hl. destruct Hl as [Hqu _].
    apply quiet_preserves_inv; assumption.
  - (* the looper thread leaves its loop *)
    destruct Hinv as [new [Hc [Hcb Hpc]]].
    exists new. simpl. split; [exact Hc|]. split; [exact Hcb|].
    destruct (dtor c); try exact Hpc; destruct Hpc as [H1 H2];
      try congruence; auto.
  - (* a sample arrives *)
    destruct Hinv as [new [Hc [Hcb Hpc]]].
    exists new. simpl. split; [exact Hc|]. split; [exact Hcb|].
    exact Hpc.
Qed.

Lemma steps_preserve_inv (cs0 : list call) (c c' : Config) :
  shutdown_inv cs0 c ->
  steps SENSOR_ORIENTATION lm c c' ->
  shutdown_inv cs0 c'.
Proof.
  intros Hinv Hsteps. induction Hsteps as [c | c c' c'' _ IH Hstep].
  - exact Hinv.
  - eapply step_preserves_inv; [apply IH; exact Hinv | exact Hstep].
Qed.

End ShutdownProperties.

Example example_running_reached :
  (initialize ;;;
   setCallbacks (Some 1%positive) (Some 2%positive) ;;;
   enableSensor example_SENSOR_ORIENTATION example_SENSOR_ORIENTATION)
    example_fresh
  = Some (tt, example_running).
Proof. vm_compute. reflexivity. Qed.

Example example_reading_up :
  accel_reading example_libm F32.zero F32.zero f_one = Some (0, 57).
Proof. vm_compute. reflexivity. Qed.

(** C6, as the code has it.  Take a listener that has a thread and whose
    destructor is about to begin, and let the destructor, the looper thread
    and the sensor service run in any interleaving.  The shutdown calls made
    so far are always an initial part of: request exit, wake, join, remove
    the descriptor; so a removal, when there is one, comes after the join.
    No callback is made after the join has returned. *)
Theorem shutdown_order_and_callbacks (SENSOR_ORIENTATION : Z) (lm : Libm)
  (c c' : Config)
  (Hstart : dtor c = BeforeDtor)
  (Hthread : mSensorLooperThread (this (state c)) <> None)
  (Hrun : steps SENSOR_ORIENTATION lm c c') :
  exists new,
    calls (world (state c')) = calls (world (state c)) ++ new /\
    (exists looper fd rest,
        shutdown_calls new ++ rest = shutdown_order looper fd) /\
    existsb is_callback (calls_after is_join new) = false.
Proof.
  assert (Hinv : shutdown_inv (calls (world (state c))) c).
  { exists []. rewrite app_nil_r, Hstart. repeat split; auto. }
  apply (steps_preserve_inv _ _ _ _ _ Hinv) in Hrun.
  destruct Hrun as [new [Hc [Hcb Hpc]]].
  exists new. split; [exact Hc|]. split; [|exact Hcb].
  unfold shutdown_order.
  destruct (dtor c').
  - destruct Hpc as [-> _]. exists 1%positive, 0. eexists. reflexivity.
  - destruct Hpc as [-> _]. exists 1%positive, 0. eexists. reflexivity.
  - destruct Hpc as [-> _]. exists 1%positive, 0. eexists. reflexivity.
  - destruct Hpc as [-> _]. exists 1%positive, 0. eexists. reflexivity.
  - destruct Hpc as [_ [-> | [looper [fd ->]]]].
    + exists 1%positive, 0. eexists. reflexivity.
    + exists looper, fd, []. reflexivity.
Qed.

(** A whole shutdown of the example listener: the exit request, the handler
    run for the waiting sample, the end of the thread loop, then wake, join
    and the last part of the destructor. *)
Lemma example_shutdown_run :
  exists c',
    steps example_SENSOR_ORIENTATION example_libm example_config c' /\
    dtor c' = DtorDone /\
    calls (world (state c')) =
      calls (world (state example_config))
        ++ [ThreadRequestExit;
            OrientationCb 1%positive 0 57 (Some 2%positive);
            ThreadWake; ThreadJoin].
Proof.
  eexists. split.
  - eapply steps_snoc; [eapply steps_snoc; [eapply steps_snoc;
      [eapply steps_snoc; [eapply steps_snoc; [eapply steps_snoc;
        [apply steps_refl|]|]|]|]|]|].
    + eapply step_dtor; [discriminate | discriminate | vm_compute; reflexivity].
    + eapply step_pump_events; [reflexivity | reflexivity
                               | vm_compute; reflexivity].
    + eapply step_pump_exit; reflexivity.
    + eapply step_dtor; [discriminate | discriminate | vm_compute; reflexivity].
    + eapply step_dtor; [discriminate | reflexivity | vm_compute; reflexivity].
    + eapply step_dtor; [discriminate | discriminate | vm_compute; reflexivity].
  - split; reflexivity.
Defined.

Lemma shutdown_order_and_callbacks_witness :
  exists c',
    steps example_SENSOR_ORIENTATION example_libm example_config c' /\
    exists new,
      calls (world (state c')) = calls (world (state example_config)) ++ new /\
      (exists looper fd rest,
          shutdown_calls new ++ rest = shutdown_order looper fd) /\
      existsb is_callback (calls_after is_join new) = false.
Proof.
  destruct example_shutdown_run as [c' [Hrun _]].
  exists c'. split; [exact Hrun|].
  apply (shutdown_order_and_callbacks example_SENSOR_ORIENTATION example_libm
           example_config c'); [reflexivity | discriminate | exact Hrun].
Defined.

(** C6 as the specification words it does not hold: the destructor has
    begun with the exit request, a sample is waiting, and the handler still runs on the
    looper thread and makes the callback. *)
Lemma callback_after_destruction_begins :
  exists c',
    steps example_SENSOR_ORIENTATION example_libm example_config c' /\
    dtor c' = AtWake /\
    existsb is_callback
      (calls_after is_request_exit (calls (world (state c')))) = true.
Proof.
  eexists. split.
  - eapply steps_snoc; [eapply steps_snoc; [apply steps_refl|]|].
    + eapply step_dtor; [discriminate | discriminate | vm_compute; reflexivity].
    + eapply step_pump_events; [reflexivity | reflexivity
                               | vm_compute; reflexivity].
  - split; reflexivity.
Qed.

(** ** The claims on the example listener *)

(** C3 as the specification words it does not hold: a callback
    registered with the context at address 2 is kept by a later call with a null callback, but
    is then paired with the context of that call, address 9. *)
Lemma setCallbacks_null_replaces_cookie :
  exists s',
    setCallbacks None (Some 9%positive) example_running = Some (tt, s') /\
    mOrientationCb (this s') = Some 1%positive /\
    mCbCookie (this example_running) = Some 2%positive /\
    mCbCookie (this s') = Some 9%positive /\
    s' <> example_running.
Proof.
  eexists. split; [vm_compute; reflexivity|].
  split; [reflexivity|]. split; [reflexivity|]. split; [reflexivity|].
  discriminate.
Qed.

(** C4 as the specification words it does not hold: a second
    [initialize] finds the thread running, logs it, and returns [INVALID_OPERATION], which is not
    [NO_ERROR]. *)
Lemma initialize_twice_is_an_error :
  exists s1 s2,
    initialize example_fresh = Some (NO_ERROR, s1) /\
    initialize s1 = Some (INVALID_OPERATION, s2) /\
    INVALID_OPERATION <> NO_ERROR /\
    In (LOGE "thread already running ?!?") (calls (world s2)).
Proof.
  do 2 eexists. split; [vm_compute; reflexivity|].
  split; [vm_compute; reflexivity|].
  split; [discriminate|]. simpl. tauto.
Qed.

Lemma sensor_toggle_idempotent_witness :
  ((enableSensor example_SENSOR_ORIENTATION example_SENSOR_ORIENTATION ;;;
    enableSensor example_SENSOR_ORIENTATION example_SENSOR_ORIENTATION)
     example_fresh
   = enableSensor example_SENSOR_ORIENTATION example_SENSOR_ORIENTATION
       example_fresh) /\
  enableSensor example_SENSOR_ORIENTATION example_SENSOR_ORIENTATION
    example_running = Some (tt, example_running) /\
  disableSensor example_SENSOR_ORIENTATION example_SENSOR_ORIENTATION
    example_fresh = Some (tt, example_fresh).
Proof.
  split; [|split].
  - apply (sensor_toggle_idempotent example_SENSOR_ORIENTATION
             example_SENSOR_ORIENTATION example_fresh).
  - apply (sensor_toggle_idempotent example_SENSOR_ORIENTATION
             example_SENSOR_ORIENTATION example_running).
    discriminate.
  - apply (sensor_toggle_idempotent example_SENSOR_ORIENTATION
             example_SENSOR_ORIENTATION example_fresh).
    reflexivity.
Defined.

Lemma enableSensor_no_accelerometer_witness :
  enableSensor example_SENSOR_ORIENTATION example_SENSOR_ORIENTATION
    example_fresh_no_accelerometer
  = Some (tt, example_fresh_no_accelerometer).
Proof.
  apply (enableSensor_no_accelerometer example_SENSOR_ORIENTATION
           example_SENSOR_ORIENTATION example_fresh_no_accelerometer).
  reflexivity.
Defined.

Lemma other_kinds_ignored_witness :
  enableSensor example_SENSOR_ORIENTATION example_SENSOR_GYROSCOPE
    example_running = Some (tt, example_running) /\
  disableSensor example_SENSOR_ORIENTATION example_SENSOR_GYROSCOPE
    example_running = Some (tt, example_running).
Proof.
  apply (other_kinds_ignored example_SENSOR_ORIENTATION
           example_SENSOR_GYROSCOPE example_running).
  reflexivity.
Defined.

(** Two calls of [enableSensor] in a row on the initialised example
    listener: the accelerometer is enabled once and its rate set once. *)
Example enableSensor_twice_calls :
  option_map fst
    ((initialize ;;;
      enableSensor example_SENSOR_ORIENTATION example_SENSOR_ORIENTATION ;;;
      enableSensor example_SENSOR_ORIENTATION example_SENSOR_ORIENTATION ;;;
      w <- get_world ;; ret (calls w))
       example_fresh)
  = Some [LooperAddFd 4%positive 7; ThreadRun 4%positive;
          QueueEnableSensor 3%positive 5%positive;
          QueueSetEventRate 3%positive 5%positive 100000000].
Proof. vm_compute. reflexivity. Qed.

(** * Further properties of the code *)

(** ** Arithmetic of the handler, in general *)

Lemma cast_times_57 (f : float) (k : Z) :
  float_to_int f = Some k -> -3 <= k <= 3 ->
  cast_times_RADIANS_2_DEG f = Some (57 * k).
Proof.
  intros Hk Hr. unfold cast_times_RADIANS_2_DEG. rewrite Hk.
  assert (Hc : k = -3 \/ k = -2 \/ k = -1 \/ k = 0 \/ k = 1 \/ k = 2 \/ k = 3)
    by lia.
  destruct Hc as [-> | [-> | [-> | [-> | [-> | [-> | ->]]]]]];
    vm_compute; reflexivity.
Qed.

(** X1.  The tilt handed on is 57 times the integral part of the arc sine
    in radians: whenever [asinf] of [z / radius] has integral part [k]
    between -3 and 3 (it is between -1 and 1 for an arc sine), the tilt is
    [57 * k]. *)
Theorem accel_tilt_of_integral_part (lm : Libm) (x y z : float) (k : Z)
  (Hk : float_to_int (asinf lm (F32.div z (radius x y z))) = Some k)
  (Hrange : -3 <= k <= 3) :
  accel_tilt lm x y z = Some (57 * k).
Proof. unfold accel_tilt. apply cast_times_57; assumption. Qed.

Lemma accel_tilt_of_integral_part_witness :
  accel_tilt example_libm F32.zero F32.zero f_one = Some (57 * 1).
Proof.
  apply (accel_tilt_of_integral_part example_libm F32.zero F32.zero f_one 1);
    [vm_compute; reflexivity | lia].
Defined.

(** X2.  The orientation handed on depends on the integral part [k] of
    [atan2f(-x, y)] in radians only: 0 for [k = 0], 90 for [k] 1 or 2, 270
    for [k = -1], and 180 for [k] 3, -2 or -3. *)
Theorem accel_orient_of_integral_part (lm : Libm) (x y : float) (k : Z)
  (Hk : float_to_int (atan2f lm (F32.neg x) y) = Some k)
  (Hrange : -3 <= k <= 3) :
  accel_orient lm x y =
    Some (if k =? 0 then 0
          else if (k =? 1) || (k =? 2) then 90
          else if k =? -1 then 270
          else 180).
Proof.
  unfold accel_orient. rewrite (cast_times_57 _ _ Hk Hrange).
  assert (Hc : k = -3 \/ k = -2 \/ k = -1 \/ k = 0 \/ k = 1 \/ k = 2 \/ k = 3)
    by lia.
  destruct Hc as [-> | [-> | [-> | [-> | [-> | [-> | ->]]]]]]; reflexivity.
Qed.

Lemma accel_orient_of_integral_part_witness :
  accel_orient example_libm f_one f_one = Some 0.
Proof.
  apply (accel_orient_of_integral_part example_libm f_one f_one 0);
    [vm_compute; reflexivity | lia].
Defined.

(** X3.  Whatever the sample and the C library, a reading that is handed
    to [handleOrientation] has an orientation of 0, 90, 180 or 270. *)
Theorem accel_reading_orientation (lm : Libm) (x y z : float) (o t : Z)
  (H : accel_reading lm x y z = Some (o, t)) :
  o = 0 \/ o = 90 \/ o = 180 \/ o = 270.
Proof.
  unfold accel_reading in H.
  destruct (accel_tilt lm x y z) as [tilt|]; [|discriminate].
  destruct (accel_orient lm x y) as [orient|] eqn:E; [|discriminate].
  inversion H; subst. apply accel_orient_range in E. simpl in E.
  destruct E as [<- | [<- | [<- | [<- | []]]]]; vm_compute; tauto.
Qed.

Lemma accel_reading_orientation_witness :
  accel_reading example_libm F32.zero F32.zero f_one = Some (0, 57) /\
  (0 = 0 \/ 0 = 90 \/ 0 = 180 \/ 0 = 270).
Proof.
  split; [vm_compute; reflexivity|].
  apply (accel_reading_orientation example_libm F32.zero F32.zero f_one 0 57).
  vm_compute. reflexivity.
Defined.

(** X4.  The discretisation is monotone: a larger angle never gives a
    smaller orientation. *)
Theorem discretize_monotone (a b : Z) (H : a <= b) :
  discretize a <= discretize b.
Proof.
  unfold discretize, DEGREES_270_THRESH, DEGREES_180_THRESH,
    DEGREES_90_THRESH.
  repeat match goal with
         | |- context [?u <=? ?v] => destruct (Z.leb_spec u v)
         end; lia.
Qed.

Lemma discretize_monotone_witness : discretize 49 <= discretize 50.
Proof. apply discretize_monotone. lia. Defined.

(** ** The handler as a whole *)

Lemma set_calls_same (w : World) : set_calls (calls w) w = w.
Proof. destruct w; reflexivity. Qed.

Lemma set_calls_twice (c1 c2 : list call) (w : World) :
  set_calls c2 (set_calls c1 w) = set_calls c2 w.
Proof. reflexivity. Qed.

Lemma state_eta (s : State) : {| this := this s; world := world s |} = s.
Proof. destruct s; reflexivity. Qed.

Lemma readings_app (lm : Libm) (es1 es2 : list ASensorEvent) :
  readings lm (es1 ++ es2) =
    match readings lm es1, readings lm es2 with
    | Some r1, Some r2 => Some (r1 ++ r2)
    | _, _ => None
    end.
Proof.
  induction es1 as [|e es1 IH]; simpl.
  - destruct (readings lm es2); reflexivity.
  - destruct (ev_type e =? TYPE_ACCELEROMETER); [|exact IH].
    destruct (accel_reading lm _ _ _) as [r|]; [|reflexivity].
    rewrite IH. destruct (readings lm es1), (readings lm es2); reflexivity.
Qed.

Lemma dispatched_app (SENSOR_ORIENTATION : Z) (l : SensorListener)
  (r1 r2 : list (Z * Z)) :
  dispatched SENSOR_ORIENTATION l (r1 ++ r2) =
    dispatched SENSOR_ORIENTATION l r1 ++ dispatched SENSOR_ORIENTATION l r2.
Proof.
  unfold dispatched. destruct (mOrientationCb l); [|reflexivity].
  destruct (_ =? 0); [reflexivity | apply map_app].
Qed.

Section HandlerRun.

Variable SENSOR_ORIENTATION : Z.
Variable lm : Libm.

(** The [for] loop over a batch: every accelerometer sample is dispatched
    in turn. *)
Lemma handle_events_run (es : list ASensorEvent) (s : State) :
  handle_events SENSOR_ORIENTATION lm es s =
    match readings lm es with
    | Some rs =>
        Some (tt,
              {| this := this s;
                 world :=
                   set_calls
                     (calls (world s)
                        ++ dispatched SENSOR_ORIENTATION (this s) rs)
                     (world s) |})
    | None => None
    end.
Proof.
  revert s. induction es as [|e es IH]; intros s; simpl.
  - unfold ret, dispatched.
    replace (calls (world s) ++ _) with (calls (world s))
      by (destruct (mOrientationCb (this s)); [destruct (_ =? 0)|];
          rewrite app_nil_r; reflexivity).
    rewrite set_calls_same, state_eta. reflexivity.
  - unfold bind at 1. unfold handle_event.
    destruct (ev_type e =? TYPE_ACCELEROMETER).
    + destruct (accel_reading lm _ _ _) as [[o t]|]; [|reflexivity].
      rewrite handleOrientation_unfold. cbv beta iota. rewrite IH.
      destruct (readings lm es) as [rs|]; [|reflexivity].
      unfold dispatched.
      destruct (mOrientationCb (this s)) as [fn|] eqn:Ecb; simpl;
        rewrite ?Ecb; [|reflexivity].
      destruct (Z.land (sensorsEnabled (this s)) SENSOR_ORIENTATION =? 0)
        eqn:Eb; simpl; rewrite ?Ecb, ?Eb; [reflexivity|].
      rewrite <- app_assoc. reflexivity.
    + replace ((if ev_type e =? TYPE_GYROSCOPE then ret tt else ret tt) s)
        with (Some (tt, s)) by (destruct (_ =? _); reflexivity).
      apply IH.
Qed.

Lemma queue_read_run (n : nat) (s : State) (q : SensorEventQueue) :
  mSensorEventQueue (this s) = Some q ->
  queue_read n s =
    match pending (world s) with
    | [] => Some ((Zneg (read_errno (world s)), []), s)
    | _ :: _ =>
        Some ((Z.of_nat (List.length (firstn n (pending (world s)))),
               firstn n (pending (world s))),
              {| this := this s;
                 world := set_pending (skipn n (pending (world s))) (world s) |})
    end.
Proof.
  intros Hq. unfold queue_read. run_monad. rewrite Hq. simpl.
  destruct s as [l w]; simpl. destruct (pending w); reflexivity.
Qed.

Lemma dispatched_nil (l : SensorListener) :
  dispatched SENSOR_ORIENTATION l [] = [].
Proof.
  unfold dispatched. destruct (mOrientationCb l); [destruct (_ =? 0)|];
    reflexivity.
Qed.

(** The [while] loop: batches of 8 until the queue is empty, which comes to
    dispatching every waiting accelerometer sample in order. *)
Lemma read_loop_run (fuel : nat) (s : State) (q : SensorEventQueue) :
  mSensorEventQueue (this s) = Some q ->
  (List.length (pending (world s)) < fuel)%nat ->
  read_loop SENSOR_ORIENTATION lm fuel s =
    match readings lm (pending (world s)) with
    | Some rs =>
        Some (Some (Zneg (read_errno (world s))),
              {| this := this s;
                 world :=
                   set_pending []
                     (set_calls
                        (calls (world s)
                           ++ dispatched SENSOR_ORIENTATION (this s) rs)
                        (world s)) |})
    | None => None
    end.
Proof.
  revert s. induction fuel as [|fuel IH]; intros s Hq Hlen; [lia|].
  simpl. unfold bind at 1. rewrite (queue_read_run 8 s q Hq).
  destruct (pending (world s)) as [|e es] eqn:Ep.
  - simpl. rewrite dispatched_nil, app_nil_r. unfold ret.
    destruct s as [l w]; simpl in *. destruct w; simpl in *. subst.
    reflexivity.
  - set (batch := firstn 8 (e :: es)). set (rest := skipn 8 (e :: es)).
    assert (Hpos : (0 <? Z.of_nat (List.length batch)) = true)
      by (apply Z.ltb_lt; subst batch; simpl; lia).
    cbn [fst snd]. rewrite Hpos.
    unfold bind at 1. rewrite handle_events_run.
    replace (readings lm (e :: es)) with (readings lm (batch ++ rest))
      by (subst batch rest; rewrite firstn_skipn; reflexivity).
    rewrite readings_app.
    destruct (readings lm batch) as [rb|]; [|reflexivity].
    cbv beta iota.
    rewrite IH;
      [ | exact Hq
        | simpl; subst rest; rewrite length_skipn; simpl in *; lia ].
    simpl. destruct (readings lm rest) as [rr|]; [|reflexivity].
    rewrite dispatched_app, app_assoc. reflexivity.
Qed.

(** [sensor_events_listener] on a listener with a queue: it returns 1,
    leaves the listener as it was, empties the queue, and adds to the log
    the callbacks for the waiting accelerometer samples, in order, and the
    error line when the read ended on an error. *)
Lemma sensor_events_listener_run (fd events : Z) (s : State)
  (q : SensorEventQueue) :
  mSensorEventQueue (this s) = Some q ->
  sensor_events_listener SENSOR_ORIENTATION lm fd events s =
    match readings lm (pending (world s)) with
    | Some rs =>
        Some (1,
              {| this := this s;
                 world :=
                   set_pending []
                     (set_calls
                        (calls (world s)
                           ++ dispatched SENSOR_ORIENTATION (this s) rs
                           ++ read_failure_log (world s))
                        (world s)) |})
    | None => None
    end.
Proof.
  intros Hq. unfold sensor_events_listener.
  unfold bind at 1, get_world. unfold bind at 1.
  rewrite (read_loop_run _ s q Hq (Nat.lt_succ_diag_r _)).
  destruct (readings lm (pending (world s))) as [rs|]; [|reflexivity].
  cbv beta iota. unfold read_failure_log.
  assert (Hc : (Z.neg (read_errno (world s)) <? 0)
               && negb (Z.neg (read_errno (world s)) =? - EAGAIN)
               = negb (Z.pos (read_errno (world s)) =? EAGAIN)).
  { unfold EAGAIN. rewrite <- !Pos2Z.opp_pos.
    replace (- Z.pos (read_errno (world s)) <? 0) with true
      by (symmetry; apply Z.ltb_lt; lia).
    destruct (Z.eqb_spec (Z.pos (read_errno (world s))) 11) as [E|E];
      destruct (Z.eqb_spec (- Z.pos (read_errno (world s))) (- 11)) as [F|F];
      try reflexivity; lia. }
  rewrite Hc.
  destruct (Z.pos (read_errno (world s)) =? EAGAIN);
    unfold negb, bind, emit, modify_world, ret; simpl.
  - rewrite app_nil_r. reflexivity.
  - rewrite <- app_assoc. reflexivity.
Qed.

End HandlerRun.

(** X5.  On a listener with an event queue, when every waiting
    accelerometer sample has a defined reading, the handler returns 1 (the
    looper keeps the callback registered), leaves every field of the
    listener as it was, and leaves no sample in the queue, however many
    were waiting. *)
Theorem handler_returns_and_drains (SENSOR_ORIENTATION : Z) (lm : Libm)
  (fd events : Z) (s : State) (q : SensorEventQueue) (rs : list (Z * Z))
  (Hq : mSensorEventQueue (this s) = Some q)
  (Hr : readings lm (pending (world s)) = Some rs) :
  exists s',
    sensor_events_listener SENSOR_ORIENTATION lm fd events s = Some (1, s') /\
    this s' = this s /\
    pending (world s') = [].
Proof.
  rewrite (sensor_events_listener_run _ _ _ _ _ _ Hq), Hr.
  eexists. split; [reflexivity|]. split; reflexivity.
Qed.

Lemma handler_returns_and_drains_witness :
  exists s',
    sensor_events_listener example_SENSOR_ORIENTATION example_libm 7 1
      (add_sample example_sample_up example_running) = Some (1, s') /\
    this s' = this (add_sample example_sample_up example_running) /\
    pending (world s') = [].
Proof.
  apply (handler_returns_and_drains example_SENSOR_ORIENTATION example_libm
           7 1 (add_sample example_sample_up example_running)
           {| queue_addr := 3%positive; queue_fd := 7 |} [(0, 57)]);
    vm_compute; reflexivity.
Defined.

(** X6.  Under the same conditions the calls the handler adds to the log
    are, in the order the samples were queued, one callback per
    accelerometer sample when a callback is registered and the orientation
    bit is set, none otherwise, followed by the error line when the read
    ended on an error other than [EAGAIN]; reading in batches of 8 changes
    nothing to that. *)
Theorem handler_delivers_in_order (SENSOR_ORIENTATION : Z) (lm : Libm)
  (fd events : Z) (s s' : State) (q : SensorEventQueue) (rs : list (Z * Z))
  (r : Z)
  (Hq : mSensorEventQueue (this s) = Some q)
  (Hr : readings lm (pending (world s)) = Some rs)
  (Hrun : sensor_events_listener SENSOR_ORIENTATION lm fd events s
          = Some (r, s')) :
  calls (world s') =
    calls (world s)
      ++ dispatched SENSOR_ORIENTATION (this s) rs
      ++ read_failure_log (world s).
Proof.
  rewrite (sensor_events_listener_run _ _ _ _ _ _ Hq), Hr in Hrun.
  inversion Hrun; subst. reflexivity.
Qed.

Lemma queue_read_null (n : nat) (s : State) :
  mSensorEventQueue (this s) = None -> queue_read n s = None.
Proof.
  intros Hq. unfold queue_read, bind, get_this, deref. rewrite Hq.
  reflexivity.
Qed.

(** X7.  The handler fails in two cases only: the listener has no event
    queue (the read dereferences a null pointer), or the reading of a
    waiting accelerometer sample is undefined. *)
Theorem handler_fails_iff (SENSOR_ORIENTATION : Z) (lm : Libm)
  (fd events : Z) (s : State) :
  sensor_events_listener SENSOR_ORIENTATION lm fd events s = None <->
  mSensorEventQueue (this s) = None \/
  readings lm (pending (world s)) = None.
Proof.
  destruct (mSensorEventQueue (this s)) as [q|] eqn:Hq.
  - rewrite (sensor_events_listener_run _ _ _ _ _ _ Hq).
    destruct (readings lm (pending (world s))); split;
      intros H; try discriminate; try (destruct H; discriminate); auto.
  - split; [auto|]. intros _.
    unfold sensor_events_listener.
    unfold bind at 1, get_world. unfold bind at 1.
    cbn [read_loop]. unfold bind at 1.
    rewrite (queue_read_null 8 s Hq). reflexivity.
Qed.

(** X8.  Samples that arrive while no callback is registered, or while the
    orientation bit is clear, are consumed all the same and give no
    callback: they are not kept for a later registration or enable. *)
Theorem handler_discards_when_silent (SENSOR_ORIENTATION : Z) (lm : Libm)
  (fd events : Z) (s : State) (q : SensorEventQueue) (rs : list (Z * Z))
  (Hq : mSensorEventQueue (this s) = Some q)
  (Hr : readings lm (pending (world s)) = Some rs)
  (Hsilent : mOrientationCb (this s) = None \/
             Z.land (sensorsEnabled (this s)) SENSOR_ORIENTATION = 0) :
  exists s',
    sensor_events_listener SENSOR_ORIENTATION lm fd events s = Some (1, s') /\
    pending (world s') = [] /\
    calls (world s') = calls (world s) ++ read_failure_log (world s) /\
    existsb is_callback (read_failure_log (world s)) = false.
Proof.
  rewrite (sensor_events_listener_run _ _ _ _ _ _ Hq), Hr.
  eexists. split; [reflexivity|]. split; [reflexivity|]. split.
  - simpl. unfold dispatched.
    destruct Hsilent as [-> | H]; [reflexivity|].
    apply Z.eqb_eq in H. rewrite H.
    destruct (mOrientationCb (this s)); reflexivity.
  - unfold read_failure_log. destruct (_ =? _); reflexivity.
Qed.

Lemma handler_delivers_in_order_witness :
  exists s',
    sensor_events_listener example_SENSOR_ORIENTATION example_libm 7 1
      (add_sample example_sample_up
         (add_sample example_sample_up example_running)) = Some (1, s') /\
    calls (world s') =
      calls (world example_running)
        ++ [OrientationCb 1%positive 0 57 (Some 2%positive);
            OrientationCb 1%positive 0 57 (Some 2%positive)]
        ++ [].
Proof.
  eexists. split; [vm_compute; reflexivity|].
  apply (handler_delivers_in_order example_SENSOR_ORIENTATION example_libm
           7 1
           (add_sample example_sample_up
              (add_sample example_sample_up example_running))
           _ {| queue_addr := 3%positive; queue_fd := 7 |}
           [(0, 57); (0, 57)] 1);
    vm_compute; reflexivity.
Defined.

Lemma handler_discards_when_silent_witness :
  exists s',
    sensor_events_listener example_SENSOR_ORIENTATION example_libm 7 1
      {| this := set_sensorsEnabled 0 (this example_running);
         world := set_pending [example_sample_up] (world example_running) |}
    = Some (1, s') /\
    pending (world s') = [] /\
    calls (world s') = calls (world example_running) ++ [] /\
    existsb is_callback [] = false.
Proof.
  apply (handler_discards_when_silent example_SENSOR_ORIENTATION example_libm
           7 1
           {| this := set_sensorsEnabled 0 (this example_running);
              world :=
                set_pending [example_sample_up] (world example_running) |}
           {| queue_addr := 3%positive; queue_fd := 7 |} [(0, 57)]);
    [vm_compute; reflexivity | vm_compute; reflexivity | right; reflexivity].
Defined.

(** ** Sensor subscription: failure and round trip *)

Lemma land_lor_lnot (m b : Z) :
  Z.land m b = 0 -> Z.land (Z.lor m b) (Z.lnot b) = m.
Proof.
  intros H. apply Z.bits_inj'. intros n Hn.
  assert (Hb : Z.testbit m n && Z.testbit b n = false)
    by (rewrite <- Z.land_spec, H; apply Z.bits_0).
  rewrite Z.land_spec, Z.lor_spec, Z.lnot_spec by exact Hn.
  destruct (Z.testbit m n), (Z.testbit b n); simpl in *; congruence.
Qed.

(** X9.  [enableSensor] fails (a null pointer is dereferenced) exactly when
    it has something to do and the listener has no event queue: the type
    has the orientation bit, the bit of the mask is clear, an accelerometer
    exists, and [mSensorEventQueue] is null, as it is before [initialize].
    [disableSensor] fails exactly in the same case with the bit of the mask
    set. *)
Theorem sensor_toggle_fails_iff (SENSOR_ORIENTATION type : Z) (s : State) :
  (enableSensor SENSOR_ORIENTATION type s = None <->
   Z.land type SENSOR_ORIENTATION <> 0 /\
   Z.land (sensorsEnabled (this s)) SENSOR_ORIENTATION = 0 /\
   default_accelerometer (world s) <> None /\
   mSensorEventQueue (this s) = None) /\
  (disableSensor SENSOR_ORIENTATION type s = None <->
   Z.land type SENSOR_ORIENTATION <> 0 /\
   Z.land (sensorsEnabled (this s)) SENSOR_ORIENTATION <> 0 /\
   default_accelerometer (world s) <> None /\
   mSensorEventQueue (this s) = None).
Proof.
  rewrite enableSensor_unfold, disableSensor_unfold.
  destruct (Z.eqb_spec (Z.land type SENSOR_ORIENTATION) 0) as [Et|Et];
    destruct (Z.eqb_spec (Z.land (sensorsEnabled (this s)) SENSOR_ORIENTATION)
                0) as [Em|Em];
    destruct (default_accelerometer (world s)) as [sensor|];
    destruct (mSensorEventQueue (this s)) as [q|]; simpl;
    intuition (try discriminate; try congruence).
Qed.

(** X10.  An effective [enableSensor] followed by [disableSensor] is a round
    trip on the listener: the mask is what it was, and the log has gained
    the enable, the rate of 100 ms, and the disable, of the same sensor on
    the same queue. *)
Theorem enable_then_disable (SENSOR_ORIENTATION type : Z) (s : State)
  (sensor : address) (q : SensorEventQueue)
  (Htype : Z.land type SENSOR_ORIENTATION <> 0)
  (Hmask : Z.land (sensorsEnabled (this s)) SENSOR_ORIENTATION = 0)
  (Hsensor : default_accelerometer (world s) = Some sensor)
  (Hqueue : mSensorEventQueue (this s) = Some q) :
  (enableSensor SENSOR_ORIENTATION type ;;;
   disableSensor SENSOR_ORIENTATION type) s =
    Some (tt,
          {| this := this s;
             world :=
               set_calls
                 (calls (world s)
                    ++ [QueueEnableSensor (queue_addr q) sensor;
                        QueueSetEventRate (queue_addr q) sensor 100000000;
                        QueueDisableSensor (queue_addr q) sensor])
                 (world s) |}).
Proof.
  unfold bind.
  rewrite (enableSensor_effect _ _ _ _ _ Htype Hmask Hsensor Hqueue).
  rewrite disableSensor_unfold. simpl.
  apply Z.eqb_neq in Htype. rewrite Htype, Hsensor, Hqueue.
  rewrite land_lor_absorb.
  replace (SENSOR_ORIENTATION =? 0) with false.
  - simpl. rewrite (land_lor_lnot _ _ Hmask).
    destruct s as [[se cb ck lp qu th] w]; simpl.
    rewrite <- app_assoc. reflexivity.
  - symmetry. apply Z.eqb_neq. intros E. apply Z.eqb_neq in Htype.
    apply Htype. rewrite E. apply Z.land_0_r.
Qed.

Lemma enable_then_disable_witness :
  (enableSensor example_SENSOR_ORIENTATION example_SENSOR_ORIENTATION ;;;
   disableSensor example_SENSOR_ORIENTATION example_SENSOR_ORIENTATION)
    {| this := set_sensorsEnabled 0 (this example_running);
       world := world example_running |}
  = Some (tt,
          {| this := set_sensorsEnabled 0 (this example_running);
             world :=
               set_calls
                 (calls (world example_running)
                    ++ [QueueEnableSensor 3%positive 5%positive;
                        QueueSetEventRate 3%positive 5%positive 100000000;
                        QueueDisableSensor 3%positive 5%positive])
                 (world example_running) |}).
Proof.
  apply (enable_then_disable example_SENSOR_ORIENTATION
           example_SENSOR_ORIENTATION
           {| this := set_sensorsEnabled 0 (this example_running);
              world := world example_running |}
           5%positive {| queue_addr := 3%positive; queue_fd := 7 |});
    [discriminate | reflexivity | reflexivity | reflexivity].
Defined.

(** ** Callback slot, destructor and first initialisation *)

(** X11.  Two calls of [setCallbacks] in a row come to one: the context of
    the second call, and the callback of the second call unless it is null,
    in which case the callback of the first call (or the one stored before,
    when both are null). *)
Theorem setCallbacks_twice (cb1 cookie1 cb2 cookie2 : option address)
  (s : State) :
  (setCallbacks cb1 cookie1 ;;; setCallbacks cb2 cookie2) s =
    setCallbacks
      (match cb2 with
       | Some fn => Some fn
       | None => cb1
       end)
      cookie2 s.
Proof.
  unfold setCallbacks. run_monad.
  destruct cb1, cb2; reflexivity.
Qed.

(** X12.  The destructor fails (a null pointer is dereferenced) exactly
    when the member looper is set and the event queue is null.  When it
    returns, the thread and looper members are null, the callback slot, the
    mask and the queue are what they were, and the sensor has not been
    switched: a sensor left enabled stays enabled. *)
Theorem destructor_effect (s : State) :
  (destructor s = None <->
   mLooper (this s) <> None /\ mSensorEventQueue (this s) = None) /\
  (forall s',
      destructor s = Some (tt, s') ->
      mSensorLooperThread (this s') = None /\
      mLooper (this s') = None /\
      mOrientationCb (this s') = mOrientationCb (this s) /\
      mCbCookie (this s') = mCbCookie (this s) /\
      sensorsEnabled (this s') = sensorsEnabled (this s) /\
      mSensorEventQueue (this s') = mSensorEventQueue (this s) /\
      toggles (calls (world s')) = toggles (calls (world s))).
Proof.
  assert (Ht : forall cs ext,
             toggles ext = [] -> toggles (cs ++ ext) = toggles cs).
  { intros cs ext H. induction cs as [|c cs IH]; simpl; [exact H|].
    destruct c; rewrite ?IH; reflexivity. }
  unfold destructor, kill_looper, Thread_requestExit. run_monad.
  destruct s as [[se cb ck lp qu th] w]; simpl.
  destruct th as [t|]; destruct lp as [looper|]; destruct qu as [q|]; simpl;
    (split; [intuition (try discriminate; try congruence)|]);
    intros s' H; try discriminate; inversion H; subst; simpl;
    repeat split; trivial;
    rewrite <- ?app_assoc; try (apply Ht; reflexivity).
Qed.

(** X13.  The first successful [initialize] of a listener that has no
    thread yet: the queue is the one the sensor manager created, its
    descriptor has been added to a new looper, the thread polls that looper
    and is running; the callback slot, the mask and the member [mLooper]
    are untouched. *)
Theorem initialize_first (s s' : State)
  (Hthread : mSensorLooperThread (this s) = None)
  (Hrun : initialize s = Some (NO_ERROR, s')) :
  exists q,
    next_queue (world s) = Some q /\
    mSensorEventQueue (this s') = Some q /\
    mSensorLooperThread (this s') =
      Some {| thread_looper := next_looper (world s);
              running := true;
              exit_pending := false |} /\
    calls (world s') =
      calls (world s)
        ++ [LooperAddFd (next_looper (world s)) (queue_fd q);
            ThreadRun (next_looper (world s))] /\
    mOrientationCb (this s') = mOrientationCb (this s) /\
    mCbCookie (this s') = mCbCookie (this s) /\
    sensorsEnabled (this s') = sensorsEnabled (this s) /\
    mLooper (this s') = mLooper (this s).
Proof.
  revert Hrun. unfold initialize, Thread_run. run_monad.
  destruct s as [[se cb ck lp qu th] w]; simpl in *. subst th.
  destruct (next_queue w) as [q|]; simpl;
    [|intros H; inversion H; discriminate].
  destruct (thread_alloc_ok w); simpl;
    [|intros H; inversion H; discriminate].
  destruct (spawn_ok w); simpl;
    [|intros H; inversion H; discriminate].
  intros H; inversion H; subst. exists q. simpl.
  rewrite <- app_assoc. repeat split.
Qed.

Lemma initialize_first_witness :
  exists q,
    next_queue (world example_fresh) = Some q /\
    mSensorEventQueue (this example_initialized) = Some q /\
    mSensorLooperThread (this example_initialized) =
      Some {| thread_looper := next_looper (world example_fresh);
              running := true;
              exit_pending := false |} /\
    calls (world example_initialized) =
      calls (world example_fresh)
        ++ [LooperAddFd (next_looper (world example_fresh)) (queue_fd q);
            ThreadRun (next_looper (world example_fresh))] /\
    mOrientationCb (this example_initialized)
    = mOrientationCb (this example_fresh) /\
    mCbCookie (this example_initialized) = mCbCookie (this example_fresh) /\
    sensorsEnabled (this example_initialized)
    = sensorsEnabled (this example_fresh) /\
    mLooper (this example_initialized) = mLooper (this example_fresh).
Proof.
  apply (initialize_first example_fresh example_initialized);
    [reflexivity | vm_compute; reflexivity].
Defined.

(** ** From construction to destruction *)

Lemma toggles_app (cs ext : list call) :
  toggles (cs ++ ext) = toggles cs ++ toggles ext.
Proof.
  induction cs as [|c cs IH]; simpl; [reflexivity|].
  destruct c; simpl; rewrite ?IH; reflexivity.
Qed.

Lemma no_callback_in (cs : list call) (fn : address) (o t : Z)
  (ck : option address) :
  existsb is_callback cs = false -> ~ In (OrientationCb fn o t ck) cs.
Proof.
  intros H Hin. assert (E : existsb is_callback cs = true).
  { apply existsb_exists. eexists. split; [exact Hin | reflexivity]. }
  congruence.
Qed.

Lemma step_effect_same (SENSOR_ORIENTATION : Z) (s : State) :
  step_effect SENSOR_ORIENTATION s s.
Proof.
  split; [reflexivity|]. split; [auto|]. exists [].
  rewrite app_nil_r. split; [reflexivity|]. split; [reflexivity|].
  split; [intros fn o t ck []|]. left. split; reflexivity.
Qed.

Lemma initialize_effect (SENSOR_ORIENTATION : Z) (s s' : State)
  (r : status_t) :
  initialize s = Some (r, s') ->
  step_effect SENSOR_ORIENTATION s s' /\
  mOrientationCb (this s') = mOrientationCb (this s) /\
  mCbCookie (this s') = mCbCookie (this s) /\
  (forall t, mSensorLooperThread (this s) = Some t -> running t = true ->
             r = INVALID_OPERATION \/ r = NO_INIT).
Proof.
  unfold initialize, Thread_run, step_effect. run_monad.
  destruct s as [[se cb ck lp qu th] w]; simpl.
  destruct (next_queue w) as [nq|]; simpl;
    [destruct th as [[tl [|] ep]|]; simpl;
     [ | destruct (spawn_ok w); simpl
       | destruct (thread_alloc_ok w); simpl;
         [destruct (spawn_ok w); simpl|] ] | ];
    intros H; inversion H; subst; clear H; simpl;
    (split; [split; [reflexivity|]; split;
             [intros t Ht Hr; inversion Ht; subst; try discriminate;
              reflexivity|];
             eexists; rewrite <- ?app_assoc; split; [reflexivity|];
             split; [reflexivity|];
             split; [intros fn o t c Hin; simpl in Hin;
                     intuition discriminate|];
             left; split; reflexivity|]);
    (split; [reflexivity|]); (split; [reflexivity|]);
    intros t Ht Hr; inversion Ht; subst; try discriminate; auto.
Qed.

Lemma toggles_dispatched (SENSOR_ORIENTATION : Z) (l : SensorListener)
  (rs : list (Z * Z)) :
  toggles (dispatched SENSOR_ORIENTATION l rs) = [] /\
  existsb is_remove_fd (dispatched SENSOR_ORIENTATION l rs) = false /\
  (forall fn o t ck,
      In (OrientationCb fn o t ck) (dispatched SENSOR_ORIENTATION l rs) ->
      mOrientationCb l = Some fn /\ mCbCookie l = ck).
Proof.
  unfold dispatched. destruct (mOrientationCb l) as [f|].
  - destruct (_ =? 0).
    + split; [reflexivity|]. split; [reflexivity|]. intros fn o t ck [].
    + split; [induction rs; simpl; auto|].
      split; [induction rs; simpl; auto|].
      intros fn o t ck Hin. apply in_map_iff in Hin.
      destruct Hin as [r [E _]]. inversion E; subst. auto.
  - split; [reflexivity|]. split; [reflexivity|]. intros fn o t ck [].
Qed.

Lemma handler_effect (SENSOR_ORIENTATION : Z) (lm : Libm) (fd events r : Z)
  (s s' : State) :
  sensor_events_listener SENSOR_ORIENTATION lm fd events s = Some (r, s') ->
  step_effect SENSOR_ORIENTATION s s' /\ this s' = this s.
Proof.
  intros H.
  destruct (mSensorEventQueue (this s)) as [q|] eqn:Hq.
  - rewrite (sensor_events_listener_run _ _ _ _ _ _ Hq) in H.
    destruct (readings lm (pending (world s))) as [rs|]; [|discriminate].
    inversion H; subst; clear H. split; [|reflexivity].
    destruct (toggles_dispatched SENSOR_ORIENTATION (this s) rs)
      as [Ht [Hr Hc]].
    split; [reflexivity|]. split; [auto|].
    eexists. split; [reflexivity|].
    unfold read_failure_log. split; [|split].
    + rewrite existsb_app, Hr. destruct (_ =? _); reflexivity.
    + intros fn o t ck Hin. apply in_app_or in Hin.
      destruct Hin as [Hin | Hin]; [eauto|].
      destruct (_ =? _); simpl in Hin; intuition discriminate.
    + left. split; [reflexivity|]. rewrite toggles_app, Ht.
      destruct (_ =? _); reflexivity.
  - assert (E : sensor_events_listener SENSOR_ORIENTATION lm fd events s
                = None).
    { unfold sensor_events_listener.
      unfold bind at 1, get_world. unfold bind at 1.
      cbn [read_loop]. unfold bind at 1.
      rewrite (queue_read_null 8 s Hq). reflexivity. }
    congruence.
Qed.

Lemma enableSensor_step (SENSOR_ORIENTATION type : Z) (s s' : State) :
  enableSensor SENSOR_ORIENTATION type s = Some (tt, s') ->
  step_effect SENSOR_ORIENTATION s s' /\
  mOrientationCb (this s') = mOrientationCb (this s) /\
  mCbCookie (this s') = mCbCookie (this s).
Proof.
  rewrite enableSensor_unfold.
  destruct (Z.eqb_spec (Z.land type SENSOR_ORIENTATION) 0) as [Et|Et];
    simpl.
  { intros H; inversion H; subst. split; [apply step_effect_same | auto]. }
  destruct (Z.eqb_spec (Z.land (sensorsEnabled (this s)) SENSOR_ORIENTATION)
              0) as [Em|Em].
  2:{ intros H; inversion H; subst. split; [apply step_effect_same | auto]. }
  destruct (default_accelerometer (world s)) as [sensor|].
  2:{ intros H; inversion H; subst. split; [apply step_effect_same | auto]. }
  destruct (mSensorEventQueue (this s)) as [q|]; [|discriminate].
  intros H; inversion H; subst; clear H. simpl.
  split; [|split; reflexivity].
  split; [reflexivity|]. split; [auto|].
  eexists. split; [reflexivity|]. split; [reflexivity|]. split.
  - intros fn o t ck Hin. simpl in Hin. intuition discriminate.
  - right. left. split; [exact Em|]. split; [|split; reflexivity].
    intros E. apply Et. rewrite E. apply Z.land_0_r.
Qed.

Lemma disableSensor_step (SENSOR_ORIENTATION type : Z) (s s' : State) :
  disableSensor SENSOR_ORIENTATION type s = Some (tt, s') ->
  step_effect SENSOR_ORIENTATION s s' /\
  mOrientationCb (this s') = mOrientationCb (this s) /\
  mCbCookie (this s') = mCbCookie (this s).
Proof.
  rewrite disableSensor_unfold.
  destruct (Z.eqb_spec (Z.land type SENSOR_ORIENTATION) 0) as [Et|Et];
    simpl.
  { intros H; inversion H; subst. split; [apply step_effect_same | auto]. }
  destruct (Z.eqb_spec (Z.land (sensorsEnabled (this s)) SENSOR_ORIENTATION)
              0) as [Em|Em]; simpl.
  { intros H; inversion H; subst. split; [apply step_effect_same | auto]. }
  destruct (default_accelerometer (world s)) as [sensor|].
  2:{ intros H; inversion H; subst. split; [apply step_effect_same | auto]. }
  destruct (mSensorEventQueue (this s)) as [q|]; [|discriminate].
  intros H; inversion H; subst; clear H. simpl.
  split; [|split; reflexivity].
  split; [reflexivity|]. split; [auto|].
  eexists. split; [reflexivity|]. split; [reflexivity|]. split.
  - intros fn o t ck Hin. simpl in Hin. intuition discriminate.
  - right. right. split; [exact Em|]. split; reflexivity.
Qed.

Lemma handleOrientation_step (SENSOR_ORIENTATION orientation tilt : Z)
  (s s' : State) :
  handleOrientation SENSOR_ORIENTATION orientation tilt s = Some (tt, s') ->
  step_effect SENSOR_ORIENTATION s s' /\ this s' = this s.
Proof.
  rewrite handleOrientation_unfold. intros H; inversion H; subst; clear H.
  destruct (mOrientationCb (this s)) as [fn|] eqn:Ecb;
    [|split; [apply step_effect_same | reflexivity]].
  destruct (_ =? 0); [split; [apply step_effect_same | reflexivity]|].
  split; [|reflexivity]. split; [reflexivity|]. split; [auto|].
  eexists. split; [reflexivity|]. split; [reflexivity|]. split.
  - intros fn' o t ck [Hin | []]. inversion Hin; subst. auto.
  - left. split; reflexivity.
Qed.

Section Life.

Variable SENSOR_ORIENTATION : Z.
Variable lm : Libm.

Lemma step_effect_quiet (s s' : State) :
  mLooper (this s') = mLooper (this s) ->
  mSensorLooperThread (this s') = mSensorLooperThread (this s) ->
  sensorsEnabled (this s') = sensorsEnabled (this s) ->
  calls (world s') = calls (world s) ->
  step_effect SENSOR_ORIENTATION s s'.
Proof.
  intros Hl Ht Hm Hc. split; [exact Hl|]. split; [congruence|].
  exists []. rewrite app_nil_r. split; [exact Hc|]. split; [reflexivity|].
  split; [intros fn o t ck []|]. left. split; [exact Hm | reflexivity].
Qed.

(** One event: what it adds to the log, and what it does to the slot. *)
Lemma event_step_effect (e : event) (s s' : State) :
  event_step SENSOR_ORIENTATION lm e s = Some (tt, s') ->
  step_effect SENSOR_ORIENTATION s s' /\
  match e with
  | Call (SetCallbacks cb ck) =>
      mOrientationCb (this s') =
        match cb with
        | Some fn => Some fn
        | None => mOrientationCb (this s)
        end /\
      mCbCookie (this s') = ck
  | _ =>
      mOrientationCb (this s') = mOrientationCb (this s) /\
      mCbCookie (this s') = mCbCookie (this s)
  end.
Proof.
  destruct e as [[ | cb ck | type | type | o t | fd ev] | w]; simpl.
  - unfold bind. destruct (initialize s) as [[r s1]|] eqn:E; [|discriminate].
    intros H; inversion H; subst.
    destruct (initialize_effect SENSOR_ORIENTATION _ _ _ E) as [H1 [H2 [H3 _]]].
    auto.
  - unfold setCallbacks. destruct cb; run_monad;
      intros H; inversion H; subst; clear H; simpl;
      (split; [apply step_effect_quiet; reflexivity | split; reflexivity]).
  - apply enableSensor_step.
  - apply disableSensor_step.
  - intros H. apply handleOrientation_step in H. destruct H as [H1 H2].
    rewrite H2. auto.
  - unfold bind.
    destruct (sensor_events_listener _ _ _ _ s) as [[r s1]|] eqn:E;
      [|discriminate].
    intros H; inversion H; subst. apply handler_effect in E.
    destruct E as [H1 H2]. rewrite H2. auto.
  - unfold modify_world. intros H; inversion H; subst; clear H. simpl.
    split; [|auto]. apply step_effect_quiet; reflexivity.
Qed.

Lemma run_snoc (evs : list event) (e : event) (s : State) :
  run SENSOR_ORIENTATION lm (evs ++ [e]) s =
    match run SENSOR_ORIENTATION lm evs s with
    | Some (_, s1) => event_step SENSOR_ORIENTATION lm e s1
    | None => None
    end.
Proof.
  revert s. induction evs as [|e0 evs IH]; intros s; simpl.
  - unfold bind, ret. destruct (event_step _ _ e s) as [[[] s1]|]; reflexivity.
  - unfold bind.
    destruct (event_step _ _ e0 s) as [[[] s1]|]; [apply IH | reflexivity].
Qed.

(** Induction along a life: what holds at construction and is kept by every
    event holds at the end. *)
Lemma run_invariant (P : list event -> State -> Prop) (s0 : State) :
  P [] s0 ->
  (forall evs s e s',
      P evs s ->
      event_step SENSOR_ORIENTATION lm e s = Some (tt, s') ->
      P (evs ++ [e]) s') ->
  forall evs s,
    run SENSOR_ORIENTATION lm evs s0 = Some (tt, s) -> P evs s.
Proof.
  intros H0 Hstep evs. induction evs as [|e evs IH] using rev_ind;
    intros s Hrun.
  - simpl in Hrun. inversion Hrun; subst. exact H0.
  - rewrite run_snoc in Hrun.
    destruct (run _ _ evs s0) as [[[] s1]|] eqn:E; [|discriminate].
    eapply Hstep; [apply IH; reflexivity | exact Hrun].
Qed.

End Life.

Lemma alternating_snoc (b t : bool) (ts : list bool) :
  alternating b (ts ++ [t]) =
    alternating b ts
    && Bool.eqb t (if Nat.even (List.length ts) then b else negb b).
Proof.
  revert b. induction ts as [|t0 ts IH]; intros b.
  - simpl. rewrite andb_true_r. reflexivity.
  - cbn [app alternating List.length]. rewrite IH, Nat.even_succ.
    rewrite <- Nat.negb_even. rewrite <- andb_assoc.
    destruct (Nat.even (List.length ts)), b; reflexivity.
Qed.

(** X14.  From the constructor on, whatever calls are made and whatever
    the services do, the member [mLooper] stays null; so the destructor
    returns and, over the whole life of the listener, no descriptor is ever
    removed from a looper, although every [initialize] that gets a queue
    adds one. *)
Theorem descriptor_never_removed (SENSOR_ORIENTATION : Z) (lm : Libm)
  (junk : option address) (w : World) (evs : list event) (s : State)
  (Hrun : run SENSOR_ORIENTATION lm evs
            {| this := constructor junk; world := w |} = Some (tt, s)) :
  mLooper (this s) = None /\
  exists s' new,
    destructor s = Some (tt, s') /\
    calls (world s') = calls w ++ new /\
    existsb is_remove_fd new = false.
Proof.
  assert (Hinv : mLooper (this s) = None /\
                 exists new, calls (world s) = calls w ++ new /\
                             existsb is_remove_fd new = false).
  { revert evs s Hrun. apply run_invariant.
    - split; [reflexivity|]. exists []. rewrite app_nil_r. split; reflexivity.
    - intros evs s e s' [Hl [new [Hc Hr]]] Hstep.
      apply event_step_effect in Hstep.
      destruct Hstep as [[Hl' [_ [ext [Hc' [Hr' _]]]]] _].
      split; [congruence|]. exists (new ++ ext).
      rewrite Hc', Hc, app_assoc, existsb_app, Hr, Hr'. split; reflexivity. }
  destruct Hinv as [Hl [new [Hc Hr]]]. split; [exact Hl|].
  unfold destructor, kill_looper, Thread_requestExit. run_monad.
  destruct s as [[se cb ck lp qu th] w1]; simpl in *. subst lp.
  destruct th as [t|]; simpl; eexists; eexists;
    (split; [reflexivity|]); simpl; rewrite Hc, <- ?app_assoc;
    (split; [reflexivity|]); rewrite ?existsb_app, ?app_nil_r, ?Hr;
    reflexivity.
Qed.

Lemma descriptor_never_removed_witness :
  exists s,
    run example_SENSOR_ORIENTATION example_libm example_day example_fresh
    = Some (tt, s) /\
    mLooper (this s) = None /\
    exists s' new,
      destructor s = Some (tt, s') /\
      calls (world s') = calls example_world ++ new /\
      existsb is_remove_fd new = false.
Proof.
  eexists. split; [vm_compute; reflexivity|].
  apply (descriptor_never_removed example_SENSOR_ORIENTATION example_libm
           None example_world example_day).
  vm_compute. reflexivity.
Defined.

(** X15.  From the constructor on, the mask is either 0 or
    [SENSOR_ORIENTATION], the calls that enable and disable the sensor
    alternate in the log, beginning with an enable, and the orientation bit
    is set exactly when the last of them is an enable: the mask never
    drifts from what the listener asked of the sensor. *)
Theorem mask_follows_sensor (SENSOR_ORIENTATION : Z) (lm : Libm)
  (junk : option address) (w : World) (evs : list event) (s : State)
  (Hrun : run SENSOR_ORIENTATION lm evs
            {| this := constructor junk; world := w |} = Some (tt, s)) :
  (sensorsEnabled (this s) = 0 \/
   sensorsEnabled (this s) = SENSOR_ORIENTATION) /\
  exists new,
    calls (world s) = calls w ++ new /\
    alternating true (toggles new) = true /\
    Nat.odd (List.length (toggles new))
    = negb (Z.land (sensorsEnabled (this s)) SENSOR_ORIENTATION =? 0).
Proof.
  revert evs s Hrun. apply run_invariant.
  - split; [left; reflexivity|]. exists []. rewrite app_nil_r.
    split; [reflexivity|]. split; reflexivity.
  - intros evs s e s' [Hm [new [Hc [Ha Ho]]]] Hstep.
    apply event_step_effect in Hstep.
    destruct Hstep as [[_ [_ [ext [Hc' [_ [_ Hcase]]]]]] _].
    destruct Hcase as [[Hsame Ht] | [[Hclr [Hnz [Hset Ht]]] | [Hbit [Hset Ht]]]].
    + rewrite Hsame. split; [exact Hm|]. exists (new ++ ext).
      rewrite Hc', Hc, app_assoc, toggles_app, Ht, app_nil_r.
      split; [reflexivity|]. split; assumption.
    + assert (E0 : sensorsEnabled (this s) = 0).
      { destruct Hm as [E | E]; [exact E|].
        rewrite E, Z.land_diag in Hclr. contradiction. }
      rewrite Hset, E0, Z.lor_0_l. split; [right; reflexivity|].
      exists (new ++ ext).
      rewrite Hc', Hc, app_assoc, toggles_app, Ht.
      split; [reflexivity|].
      apply Z.eqb_eq in Hclr. rewrite Hclr in Ho. simpl in Ho.
      rewrite alternating_snoc, Ha, length_app, Nat.add_1_r, Nat.odd_succ.
      rewrite <- Nat.negb_odd, Ho, Z.land_diag.
      apply Z.eqb_neq in Hnz. rewrite Hnz. split; reflexivity.
    + assert (E1 : sensorsEnabled (this s) = SENSOR_ORIENTATION).
      { destruct Hm as [E | E]; [|exact E].
        rewrite E, Z.land_0_l in Hbit. contradiction. }
      rewrite Hset, E1, Z.land_lnot_diag. split; [left; reflexivity|].
      exists (new ++ ext).
      rewrite Hc', Hc, app_assoc, toggles_app, Ht.
      split; [reflexivity|].
      apply Z.eqb_neq in Hbit. rewrite Hbit in Ho. simpl in Ho.
      rewrite alternating_snoc, Ha, length_app, Nat.add_1_r, Nat.odd_succ.
      rewrite <- Nat.negb_odd, Ho. split; reflexivity.
Qed.

Lemma mask_follows_sensor_witness :
  exists s,
    run example_SENSOR_ORIENTATION example_libm example_day example_fresh
    = Some (tt, s) /\
    (sensorsEnabled (this s) = 0 \/
     sensorsEnabled (this s) = example_SENSOR_ORIENTATION) /\
    exists new,
      calls (world s) = calls example_world ++ new /\
      alternating true (toggles new) = true /\
      Nat.odd (List.length (toggles new))
      = negb (Z.land (sensorsEnabled (this s)) example_SENSOR_ORIENTATION
              =? 0).
Proof.
  eexists. split; [vm_compute; reflexivity|].
  apply (mask_follows_sensor example_SENSOR_ORIENTATION example_libm
           None example_world example_day).
  vm_compute. reflexivity.
Defined.

(** X16.  A registered callback cannot be taken away: once
    [mOrientationCb] is not null, no call and no change of the services
    makes it null again (a later [setCallbacks] can only replace it). *)
Theorem callback_stays_registered (SENSOR_ORIENTATION : Z) (lm : Libm)
  (evs : list event) (s s' : State)
  (Hreg : mOrientationCb (this s) <> None)
  (Hrun : run SENSOR_ORIENTATION lm evs s = Some (tt, s')) :
  mOrientationCb (this s') <> None.
Proof.
  revert evs s' Hrun. apply run_invariant; [exact Hreg|].
  intros evs s1 e s2 IH Hstep. apply event_step_effect in Hstep.
  destruct Hstep as [_ Hslot].
  destruct e as [[ | cb ck | type | type | o t | fd ev] | w0];
    destruct Hslot as [Hcb _]; rewrite Hcb; try exact IH.
  destruct cb; [discriminate | exact IH].
Qed.

Lemma callback_stays_registered_witness :
  exists s',
    run example_SENSOR_ORIENTATION example_libm
      [Call (SetCallbacks None None); Call (DisableSensor 32);
       Call Initialize]
      example_running = Some (tt, s') /\
    mOrientationCb (this s') <> None.
Proof.
  eexists. split; [vm_compute; reflexivity|].
  apply (callback_stays_registered example_SENSOR_ORIENTATION example_libm
           [Call (SetCallbacks None None); Call (DisableSensor 32);
            Call Initialize]
           example_running);
    [discriminate | vm_compute; reflexivity].
Defined.



(** X18.  A running thread is never stopped or replaced by a call on the
    listener, and while it runs [initialize] cannot succeed again: it
    returns [INVALID_OPERATION], or [NO_INIT] when no queue can be
    created. *)
Theorem initialize_succeeds_once (SENSOR_ORIENTATION : Z) (lm : Libm)
  (evs : list event) (s s1 s2 : State) (t : SensorLooperThread)
  (r : status_t)
  (Hthread : mSensorLooperThread (this s) = Some t)
  (Hrunning : running t = true)
  (Hrun : run SENSOR_ORIENTATION lm evs s = Some (tt, s1))
  (Hinit : initialize s1 = Some (r, s2)) :
  mSensorLooperThread (this s1) = Some t /\
  (r = INVALID_OPERATION \/ r = NO_INIT).
Proof.
  assert (Hkeep : mSensorLooperThread (this s1) = Some t).
  { clear Hinit r s2. revert evs s1 Hrun.
    apply run_invariant; [exact Hthread|].
    intros evs s' e s'' IH Hstep. apply event_step_effect in Hstep.
    destruct Hstep as [[_ [Hth _]] _]. apply Hth; assumption. }
  split; [exact Hkeep|].
  destruct (initialize_effect SENSOR_ORIENTATION _ _ _ Hinit)
    as [_ [_ [_ Hr]]].
  eapply Hr; eassumption.
Qed.

Lemma initialize_succeeds_once_witness :
  exists s1 s2,
    run example_SENSOR_ORIENTATION example_libm
      [Call (DisableSensor 32); Call (SetCallbacks None None)]
      example_running = Some (tt, s1) /\
    initialize s1 = Some (INVALID_OPERATION, s2) /\
    mSensorLooperThread (this s1) =
      Some {| thread_looper := 4%positive;
              running := true;
              exit_pending := false |} /\
    (INVALID_OPERATION = INVALID_OPERATION \/ INVALID_OPERATION = NO_INIT).
Proof.
  do 2 eexists. split; [vm_compute; reflexivity|].
  split; [vm_compute; reflexivity|].
  eapply (initialize_succeeds_once example_SENSOR_ORIENTATION example_libm
            [Call (DisableSensor 32); Call (SetCallbacks None None)]
            example_running);
    [reflexivity | reflexivity | vm_compute; reflexivity
     | vm_compute; reflexivity].
Defined.

(** ** Dispatch after a disable, and the tilt as the callback sees it *)

(** X19.  After a [disableSensor] of the orientation kind on a device that
    has an accelerometer, [handleOrientation] makes no callback and changes
    nothing, whether or not the sensor was enabled before. *)
Theorem no_dispatch_after_disable (SENSOR_ORIENTATION type orientation
  tilt : Z) (s s1 : State) (sensor : address)
  (Htype : Z.land type SENSOR_ORIENTATION <> 0)
  (Hsensor : default_accelerometer (world s) = Some sensor)
  (Hrun : disableSensor SENSOR_ORIENTATION type s = Some (tt, s1)) :
  handleOrientation SENSOR_ORIENTATION orientation tilt s1 = Some (tt, s1).
Proof.
  assert (Hclear : Z.land (sensorsEnabled (this s1)) SENSOR_ORIENTATION = 0).
  { revert Hrun. rewrite disableSensor_unfold, Hsensor.
    apply Z.eqb_neq in Htype. rewrite Htype. simpl.
    destruct (Z.eqb_spec
                (Z.land (sensorsEnabled (this s)) SENSOR_ORIENTATION) 0)
      as [E|E]; simpl.
    - intros H; inversion H; subst. exact E.
    - destruct (mSensorEventQueue (this s)); [|discriminate].
      intros H; inversion H; subst. simpl. apply land_clear. }
  rewrite handleOrientation_unfold. apply Z.eqb_eq in Hclear.
  rewrite Hclear. destruct (mOrientationCb (this s1)); reflexivity.
Qed.

Lemma no_dispatch_after_disable_witness :
  exists s1,
    disableSensor example_SENSOR_ORIENTATION example_SENSOR_ORIENTATION
      example_running = Some (tt, s1) /\
    handleOrientation example_SENSOR_ORIENTATION 90 0 s1 = Some (tt, s1).
Proof.
  eexists. split; [vm_compute; reflexivity|].
  apply (no_dispatch_after_disable example_SENSOR_ORIENTATION
           example_SENSOR_ORIENTATION 90 0 example_running _ 5%positive);
    [discriminate | reflexivity | vm_compute; reflexivity].
Defined.

(** X20.  When the orientation bit is set and the sensor manager no longer
    has an accelerometer, [disableSensor] changes nothing: the bit stays
    set, no call reaches the queue, and a registered callback keeps being
    called by [handleOrientation]. *)
Theorem disable_without_accelerometer (SENSOR_ORIENTATION type orientation
  tilt : Z) (s : State) (fn : address)
  (Hbit : Z.land (sensorsEnabled (this s)) SENSOR_ORIENTATION <> 0)
  (Hnone : default_accelerometer (world s) = None)
  (Hcb : mOrientationCb (this s) = Some fn) :
  disableSensor SENSOR_ORIENTATION type s = Some (tt, s) /\
  handleOrientation SENSOR_ORIENTATION orientation tilt s =
    Some (tt,
          {| this := this s;
             world :=
               set_calls
                 (calls (world s)
                    ++ [OrientationCb fn orientation tilt
                          (mCbCookie (this s))])
                 (world s) |}).
Proof.
  split.
  - rewrite disableSensor_unfold, Hnone. destruct (negb _ && negb _);
      reflexivity.
  - rewrite handleOrientation_unfold, Hcb. apply Z.eqb_neq in Hbit.
    rewrite Hbit. reflexivity.
Qed.

Lemma disable_without_accelerometer_witness :
  disableSensor example_SENSOR_ORIENTATION example_SENSOR_ORIENTATION
    {| this := this example_running;
       world := example_world_no_accelerometer |}
  = Some (tt, {| this := this example_running;
                 world := example_world_no_accelerometer |}) /\
  handleOrientation example_SENSOR_ORIENTATION 90 0
    {| this := this example_running;
       world := example_world_no_accelerometer |}
  = Some (tt,
          {| this := this example_running;
             world :=
               set_calls
                 ([] ++ [OrientationCb 1%positive 90 0 (Some 2%positive)])
                 example_world_no_accelerometer |}).
Proof.
  apply (disable_without_accelerometer example_SENSOR_ORIENTATION
           example_SENSOR_ORIENTATION 90 0
           {| this := this example_running;
              world := example_world_no_accelerometer |} 1%positive);
    [discriminate | reflexivity | reflexivity].
Defined.

(** X21.  The tilt is an [int] in the handler and a [uint32_t] in
    [handleOrientation]: the reading carries a tilt between 0 and 2^32 - 1,
    and when the arc sine has integral part -1, 0 or 1 the tilt delivered
    is 4294967239 (that is -57 wrapped), 0 or 57. *)
Theorem reading_tilt_unsigned (lm : Libm) (x y z : float) (o t k : Z)
  (Hread : accel_reading lm x y z = Some (o, t))
  (Hk : float_to_int (asinf lm (F32.div z (radius x y z))) = Some k)
  (Hrange : -1 <= k <= 1) :
  0 <= t < 2 ^ 32 /\
  t = (if k =? -1 then 4294967239 else if k =? 0 then 0 else 57).
Proof.
  unfold accel_reading in Hread.
  assert (Ht : accel_tilt lm x y z = Some (57 * k))
    by (unfold accel_tilt; apply cast_times_57; [exact Hk | lia]).
  rewrite Ht in Hread.
  destruct (accel_orient lm x y) as [orient|]; [|discriminate].
  inversion Hread; subst. unfold to_uint32. split.
  - apply Z.mod_pos_bound. reflexivity.
  - assert (Hc : k = -1 \/ k = 0 \/ k = 1) by lia.
    destruct Hc as [-> | [-> | ->]]; reflexivity.
Qed.

Lemma reading_tilt_unsigned_witness :
  0 <= 57 < 2 ^ 32 /\
  57 = (if 1 =? -1 then 4294967239 else if 1 =? 0 then 0 else 57).
Proof.
  apply (reading_tilt_unsigned example_libm F32.zero F32.zero f_one 0 57 1);
    [vm_compute; reflexivity | vm_compute; reflexivity | lia].
Defined.

Lemma destructor_effect_witness :
  exists s',
    destructor example_running = Some (tt, s') /\
    mSensorLooperThread (this s') = None /\
    mLooper (this s') = None /\
    mOrientationCb (this s') = mOrientationCb (this example_running) /\
    mCbCookie (this s') = mCbCookie (this example_running) /\
    sensorsEnabled (this s') = sensorsEnabled (this example_running) /\
    mSensorEventQueue (this s') = mSensorEventQueue (this example_running) /\
    toggles (calls (world s')) = toggles (calls (world example_running)).
Proof.
  eexists. split; [vm_compute; reflexivity|].
  apply (proj2 (destructor_effect example_running)).
  vm_compute. reflexivity.
Defined.
